(** * Configuration resolver of the Static Web Apps emulator

    A shallow embedding of [readConfigFile] (src/utils.ts, lines 112-236)
    together with the parts of the JavaScript host it runs on: values as
    YAML.parse produces them, Node's POSIX [path] module, a file system
    queried through [fs.existsSync], [fs.readdirSync] and
    [fs.readFileSync], and the console.  The YAML parser and the runtime
    detector of ./runtimes are collaborators whose code is not part of
    utils.ts; they are parameters of the development.

    The other synchronous exports of utils.ts, [response],
    [validateCookie] and [getProviderFromCookie] (lines 19-101), are
    embedded as well, with cookie.parse as a parameter.  A string is
    held as the bytes of its UTF-8 form; the one place where the code
    reads a string by UTF-16 code units, the spread of a string given as
    headers (lines 34-37 and 69-73), goes through [codeUnits].  A mapping
    does not record the order of its keys; the one result that depends
    on it, the text JSON.stringify prints at lines 44-63, is a parameter
    of [response]. *)

From Stdlib Require Import String Ascii List Bool Arith Lia Floats.
From stdpp Require Import base option gmap strings list pretty.

#[local] Set Warnings "-register-all,-notation-for-abbreviation".
#[local] Open Scope string_scope.

(** ** JavaScript strings *)

Module JsString.

(** String.prototype.includes *)
Fixpoint includes (s searchString : string) : bool :=
  if String.prefix searchString s then true
  else match s with
       | EmptyString => false
       | String _ rest => includes rest searchString
       end.

(** String.prototype.endsWith *)
Definition endsWith (s searchString : string) : bool :=
  let n := String.length s in
  let m := String.length searchString in
  (m <=? n)%nat && String.eqb (substring (n - m) m s) searchString.

(** The double-quote character of the template literals below. *)
Definition dquote : string := String (ascii_of_nat 34) EmptyString.

End JsString.

(** ** Node's [path] module, POSIX flavour

    utils.ts imports [path] from Node; the functions below follow
    lib/path.js ([posix.normalize], [posix.join], [posix.resolve] and the
    helper [normalizeString]), read segment by segment: the character
    loop of [normalizeString] cuts the path at every separator and keeps
    the segments kept so far in [res], which is the stack [res] here. *)

Module path.

Definition slash : ascii := "/"%char.

(** [path.sep] *)
Definition sep : string := "/".

(** The segments between separators: ["a//b/"] gives
    [["a"; ""; "b"; ""]]. *)
Fixpoint segments (p : string) : list string :=
  match p with
  | EmptyString => [EmptyString]
  | String c rest =>
      if Ascii.eqb c slash then EmptyString :: segments rest
      else match segments rest with
           | seg :: segs => String c seg :: segs
           | [] => [String c EmptyString]
           end
  end.

(** Segments glued back with one separator between neighbours. *)
Fixpoint glue (segs : list string) : string :=
  match segs with
  | [] => ""
  | [seg] => seg
  | seg :: rest => seg +:+ "/" +:+ glue rest
  end.

(** One separator met by [normalizeString], [seg] being the text since
    the previous separator and [res] the segments kept so far, last
    one first.  An empty segment and ["."] are dropped; [".."] removes
    the last kept segment unless that is itself [".."] (or nothing is
    kept), in which case it is kept only when [allowAboveRoot]. *)
Definition pushSegment (allowAboveRoot : bool) (res : list string) (seg : string)
  : list string :=
  if String.eqb seg "" || String.eqb seg "." then res
  else if String.eqb seg ".." then
    match res with
    | top :: below =>
        if String.eqb top ".."
        then (if allowAboveRoot then ".." :: res else res)
        else below
    | [] => if allowAboveRoot then [".."] else []
    end
  else seg :: res.

Definition normalizeString (p : string) (allowAboveRoot : bool) : string :=
  glue (rev (fold_left (pushSegment allowAboveRoot) (segments p) [])).

(** [path.isAbsolute] *)
Definition isAbsolute (p : string) : bool :=
  match p with
  | String c _ => Ascii.eqb c slash
  | EmptyString => false
  end.

(** [path.charCodeAt(path.length - 1) === CHAR_FORWARD_SLASH] *)
Fixpoint trailingSeparator (p : string) : bool :=
  match p with
  | EmptyString => false
  | String c EmptyString => Ascii.eqb c slash
  | String _ rest => trailingSeparator rest
  end.

(** [path.normalize] *)
Definition normalize (p : string) : string :=
  if String.eqb p "" then "."
  else
    let isAbs := isAbsolute p in
    let trailing := trailingSeparator p in
    let p' := normalizeString p (negb isAbs) in
    if String.eqb p' "" then
      (if isAbs then "/" else if trailing then "./" else ".")
    else
      (if isAbs then "/" else "") +:+ p' +:+ (if trailing then "/" else "").

(** [path.join]: empty arguments are skipped. *)
Definition join (args : list string) : string :=
  match List.filter (fun arg => negb (String.eqb arg "")) args with
  | [] => "."
  | parts => normalize (glue parts)
  end.

(** The loop of [path.resolve], from the last argument to the first
    and then the working directory, until an absolute one is met. *)
Fixpoint resolveLoop (args : list string) (resolvedPath : string) : string * bool :=
  match args with
  | [] => (resolvedPath, false)
  | p :: rest =>
      if String.eqb p "" then resolveLoop rest resolvedPath
      else
        let resolvedPath := p +:+ "/" +:+ resolvedPath in
        if isAbsolute p then (resolvedPath, true)
        else resolveLoop rest resolvedPath
  end.

(** [path.resolve], with [process.cwd()] passed as [cwd]. *)
Definition resolve (cwd : string) (args : list string) : string :=
  let '(resolvedPath, resolvedAbsolute) := resolveLoop ((rev args ++ [cwd])%list) "" in
  let p := normalizeString resolvedPath (negb resolvedAbsolute) in
  if resolvedAbsolute then "/" +:+ p
  else if String.eqb p "" then "." else p.

End path.

(** ** Values of a parsed YAML document

    What [YAML.parse] returns: null, booleans, numbers (IEEE doubles),
    strings, sequences and mappings with string keys.  [undefined] is not
    a YAML value; an expression that may be [undefined] has type
    [option JsVal]. *)

Inductive JsVal : Type :=
| JNull
| JBool (b : bool)
| JNum (n : float)
| JStr (s : string)
| JArr (items : list JsVal)
| JObj (props : gmap string JsVal).

(** ToBoolean *)
Definition truthy (v : JsVal) : bool :=
  match v with
  | JNull => false
  | JBool b => b
  | JNum n => negb (PrimFloat.is_zero n || PrimFloat.is_nan n)
  | JStr s => negb (String.eqb s "")
  | JArr _ | JObj _ => true
  end.

Definition truthy_undef (v : option JsVal) : bool :=
  match v with
  | Some v => truthy v
  | None => false
  end.

(** ** Exceptions and the console *)

Inductive exn : Type :=
| Error (message : string)          (* [throw Error(message)] *)
| TypeError (what : string)         (* raised by the engine or by validateString *)
| SystemError (code : string) (at_path : string)   (* raised by fs *)
| SyntaxError (message : string).   (* raised by the YAML parser *)

Inductive Exc (A : Type) : Type :=
| Ok (a : A)
| Thrown (e : exn).
Arguments Ok {A} a.
Arguments Thrown {A} e.

Definition exc_bind {A B} (m : Exc A) (k : A -> Exc B) : Exc B :=
  match m with
  | Ok a => k a
  | Thrown e => Thrown e
  end.

(** [type GithubActionSWAConfig]: the object built at lines 225-231.  The
    two commands are copied from the parsed document unchecked, so they
    are document values; the three locations come out of [path]. *)
Record GithubActionSWAConfig : Type := {
  appBuildCommand : JsVal;
  apiBuildCommand : JsVal;
  appLocation : string;
  apiLocation : string;
  appArtifactLocation : string
}.

(** [Partial<GithubActionSWAConfig>], the type of [overrideConfig]. *)
Record PartialConfig : Type := {
  override_appBuildCommand : option string;
  override_apiBuildCommand : option string;
  override_appLocation : option string;
  override_apiLocation : option string;
  override_appArtifactLocation : option string
}.

(** The value [readConfigFile] returns: [overrideConfig] as it was passed
    (lines 120 and 131), or [config] (line 235). *)
Inductive Returned : Type :=
| RetOverride (overrideConfig : option PartialConfig)
| RetConfig (config : GithubActionSWAConfig).

Inductive Log : Type :=
| console_warn (message : string)
| console_info (message : string)
| console_info_config (config : GithubActionSWAConfig).

(** A run: the lines written to the console, then the completion. *)
Definition Eff (A : Type) : Type := (list Log * Exc A)%type.

Definition ret {A} (a : A) : Eff A := ([], Ok a).
Definition throw {A} (e : exn) : Eff A := ([], Thrown e).
Definition lift {A} (m : Exc A) : Eff A := ([], m).
Definition say (l : Log) : Eff unit := ([l], Ok tt).

Definition bind {A B} (m : Eff A) (k : A -> Eff B) : Eff B :=
  match m with
  | (out, Ok a) => let '(out', r) := k a in ((out ++ out')%list, r)
  | (out, Thrown e) => (out, Thrown e)
  end.

Notation "x <- m ;; k" := (bind m (fun x => k))
  (at level 100, m at next level, right associativity).
Notation "m ;;; k" := (bind m (fun _ => k))
  (at level 100, right associativity).
Notation "x <-? m ;; k" := (exc_bind m (fun x => k))
  (at level 100, m at next level, right associativity).

(** ** Property access and calls on document values *)

(** [v[key]] on a value that is neither null nor undefined, for a key
    that no built-in prototype defines (all keys read by readConfigFile
    are such): the own property of a mapping, [undefined] on a sequence
    or a primitive. *)
Definition prop (v : JsVal) (key : string) : option JsVal :=
  match v with
  | JObj props => props !! key
  | _ => None
  end.

(** [v[key]] on any document value: reading a property of null throws. *)
Definition getProp (v : JsVal) (key : string) : Exc (option JsVal) :=
  match v with
  | JNull => Thrown (TypeError ("Cannot read property '" +:+ key +:+ "' of null"))
  | _ => Ok (prop v key)
  end.

(** [if (!v) throw e], after which [v] is known not to be undefined. *)
Definition orThrow (v : option JsVal) (e : exn) : Exc JsVal :=
  match v with
  | Some v => if truthy v then Ok v else Thrown e
  | None => Thrown e
  end.

(** [uses.includes(marker)] for a truthy [uses]: the substring test on a
    string, the membership test on a sequence; no other value has a
    callable [includes]. *)
Definition callIncludes (uses : JsVal) (marker : string) : Exc bool :=
  match uses with
  | JStr s => Ok (JsString.includes s marker)
  | JArr items =>
      Ok (existsb (fun item => match item with
                               | JStr s => String.eqb s marker
                               | _ => false
                               end) items)
  | _ => Thrown (TypeError "step.uses.includes is not a function")
  end.

(** The callback of line 165:
    [step.uses && step.uses.includes("static-web-apps-deploy")]. *)
Definition isDeployStep (step : JsVal) : Exc bool :=
  uses <-? getProp step "uses" ;;
  match uses with
  | Some uses =>
      if truthy uses then callIncludes uses "static-web-apps-deploy" else Ok false
  | None => Ok false
  end.

(** Array.prototype.find with that callback. *)
Fixpoint find (steps : list JsVal) : Exc (option JsVal) :=
  match steps with
  | [] => Ok None
  | step :: rest =>
      found <-? isDeployStep step ;;
      if (found : bool) then Ok (Some step) else find rest
  end.

(** [steps.find(...)] for a truthy [steps]: only a sequence has [find]. *)
Definition callFind (steps : JsVal) : Exc (option JsVal) :=
  match steps with
  | JArr items => find items
  | _ => Thrown (TypeError "swaYaml.jobs.build_and_deploy_job.steps.find is not a function")
  end.

(** validateString of [path]: an argument that is not a string throws. *)
Definition pathArg (v : JsVal) : Exc string :=
  match v with
  | JStr s => Ok s
  | _ => Thrown (TypeError "The path argument must be of type string")
  end.

(** ** The process: working directory and file system

    The file system maps each absolute path to what is there.  A path
    handed to [fs] is taken from the working directory when it is
    relative, as the operating system does. *)

Inductive Entry : Type :=
| File (content : string)
| Dir (listing : list string).    (* in the order readdirSync reports *)

Record Process : Type := {
  cwd : string;                   (* process.cwd() *)
  files : gmap string Entry
}.

Definition lookupPath (w : Process) (p : string) : option Entry :=
  files w !! path.resolve (cwd w) [p].

(** [fs.existsSync] *)
Definition existsSync (w : Process) (p : string) : bool :=
  match lookupPath w p with
  | Some _ => true
  | None => false
  end.

(** [fs.readdirSync] *)
Definition readdirSync (w : Process) (p : string) : Exc (list string) :=
  match lookupPath w p with
  | Some (Dir listing) => Ok listing
  | Some (File _) => Thrown (SystemError "ENOTDIR" p)
  | None => Thrown (SystemError "ENOENT" p)
  end.

(** [fs.readFileSync(p, "utf8")]: always a string when it returns, so the
    [typeof] test of line 138 never fires. *)
Definition readFileSync (w : Process) (p : string) : Exc string :=
  match lookupPath w p with
  | Some (File content) => Ok content
  | Some (Dir _) => Thrown (SystemError "EISDIR" p)
  | None => Thrown (SystemError "ENOENT" p)
  end.

(** ** readConfigFile *)

Definition warningMessage : string := "WARNING: SWA configuration not found.".

(** Line 116. *)
Definition githubActionFolder (w : Process) : string :=
  path.resolve (cwd w) [cwd w; ".github/workflows/"].

(** The filter of line 126. *)
Definition isSwaWorkflowFile (file : string) : bool :=
  JsString.includes file "azure-static-web-apps" && JsString.endsWith file ".yml".

(** The messages of lines 145-175. *)
Definition inWorkflowFile (githubActionFile kind : string) : string :=
  " in the SWA workflow file " +:+ JsString.dquote +:+ githubActionFile
    +:+ JsString.dquote +:+ ". Make sure it's a valid " +:+ kind +:+ " file.".

Definition couldNotParse (githubActionFile : string) : string :=
  "could not parse the SWA workflow file " +:+ JsString.dquote +:+ githubActionFile
    +:+ JsString.dquote +:+ ". Make sure it's a valid YAML file.".

Definition missingProperty (property githubActionFile : string) : string :=
  "missing property '" +:+ property +:+ "'"
    +:+ inWorkflowFile githubActionFile "SWA workflow".

Definition invalidProperty (property githubActionFile : string) : string :=
  "invalid property '" +:+ property +:+ "'"
    +:+ inWorkflowFile githubActionFile "SWA workflow".

(** Lines 144-177: the checks on the parsed document, down to the [with]
    block of the deploy step. *)
Definition swaBuildConfigWith (githubActionFile : string) (swaYaml : JsVal) : Exc JsVal :=
  swaYaml <-? orThrow (Some swaYaml) (Error (couldNotParse githubActionFile)) ;;
  jobs <-? getProp swaYaml "jobs" ;;
  jobs <-? orThrow jobs (Error (missingProperty "jobs" githubActionFile)) ;;
  job <-? getProp jobs "build_and_deploy_job" ;;
  job <-? orThrow job
        (Error (missingProperty "jobs.build_and_deploy_job" githubActionFile)) ;;
  steps <-? getProp job "steps" ;;
  steps <-? orThrow steps
        (Error (missingProperty "jobs.build_and_deploy_job.steps" githubActionFile)) ;;
  swaBuildConfig <-? callFind steps ;;
  swaBuildConfig <-? orThrow swaBuildConfig
        (Error (invalidProperty "jobs.build_and_deploy_job.steps[]" githubActionFile)) ;;
  withBlock <-? getProp swaBuildConfig "with" ;;
  orThrow withBlock
        (Error (missingProperty "jobs.build_and_deploy_job.steps[].with" githubActionFile)).

(** The five variables bound by the destructuring of lines 180-186. *)
Record SwaBuildConfig : Type := {
  app_build_command : JsVal;
  api_build_command : JsVal;
  app_location : JsVal;
  app_artifact_location : JsVal;
  api_location : JsVal
}.

(** A destructuring default: used when the property is [undefined]. *)
Definition orDefault (v : option JsVal) (d : JsVal) : JsVal :=
  match v with
  | Some v => v
  | None => d
  end.

(** Lines 180-186. *)
Definition destructure (withBlock : JsVal) : Exc SwaBuildConfig :=
  app_build_command <-? getProp withBlock "app_build_command" ;;
  api_build_command <-? getProp withBlock "api_build_command" ;;
  app_location <-? getProp withBlock "app_location" ;;
  app_artifact_location <-? getProp withBlock "app_artifact_location" ;;
  api_location <-? getProp withBlock "api_location" ;;
  Ok {| app_build_command := orDefault app_build_command (JStr "npm run build --if-present");
        api_build_command := orDefault api_build_command (JStr "npm run build --if-present");
        app_location := orDefault app_location (JStr path.sep);
        app_artifact_location := orDefault app_artifact_location (JStr path.sep);
        api_location := orDefault api_location (JStr "api") |}.

(** The three location variables after line 203 and after line 223. *)
Record Locations : Type := {
  loc_app : string;
  loc_api : string;
  loc_artifact : string
}.

(** One [if (overrideConfig.field) { ... }] of lines 208-222. *)
Definition overridden (cwd : string) (field : option string) (current : string) : string :=
  match field with
  | Some value =>
      if negb (String.eqb value "") then path.normalize (path.join [cwd; value])
      else current
  | None => current
  end.

(** Lines 206-223. *)
Definition applyOverride (cwd : string) (overrideConfig : option PartialConfig)
    (l : Locations) : Locations :=
  match overrideConfig with
  | Some o =>
      let app := overridden cwd (override_appLocation o) (loc_app l) in
      let artifact := overridden cwd (override_appArtifactLocation o) (loc_artifact l) in
      let api := overridden cwd (override_apiLocation o) (loc_api l) in
      {| loc_app := app; loc_api := api; loc_artifact := artifact |}
  | None => l
  end.

(** The object literal of lines 225-231. *)
Definition configOf (c : SwaBuildConfig) (l : Locations) : GithubActionSWAConfig :=
  {| appBuildCommand := app_build_command c;
     apiBuildCommand := api_build_command c;
     appLocation := loc_app l;
     apiLocation := loc_api l;
     appArtifactLocation := loc_artifact l |}.

(** The two [console.info] calls of lines 233-234. *)
Definition infoLines (githubActionFile : string) (config : GithubActionSWAConfig)
  : list Log :=
  [console_info ("INFO: Using SWA configuration file: " +:+ githubActionFile);
   console_info_config config].

Section Resolver.

(** [RuntimeType] and [detectRuntime] of ./runtimes, and [YAML.parse]. *)
Context {RuntimeType : Type} `{EqDecision RuntimeType}.
Variable dotnet : RuntimeType.
Variable detectRuntime : string -> RuntimeType.
Variable YAML_parse : string -> Exc JsVal.

(** Lines 193-203. *)
Definition resolveLocations (cwd : string) (c : SwaBuildConfig) : Exc Locations :=
  app <-? pathArg (app_location c) ;;
  let app := path.normalize (path.join [cwd; app]) in
  api <-? pathArg (if truthy (api_location c) then api_location c else JStr path.sep) ;;
  let api := path.normalize (path.join [cwd; api]) in
  artifact <-? pathArg (app_artifact_location c) ;;
  let artifact := path.normalize artifact in
  let detectedRuntimeType := detectRuntime app in
  let artifact :=
    if decide (detectedRuntimeType = dotnet)
    then path.join [app; "bin"; "Debug"; "netstandard2.1"; "publish"; artifact]
    else path.join [app; artifact] in
  Ok {| loc_app := app; loc_api := api; loc_artifact := artifact |}.

(** Lines 193-235: from the five variables to the returned [config]. *)
Definition configFrom (cwd : string) (overrideConfig : option PartialConfig)
    (githubActionFile : string) (c : SwaBuildConfig) : Eff Returned :=
  l <- lift (resolveLocations cwd c) ;;
  let config := configOf c (applyOverride cwd overrideConfig l) in
  say (console_info ("INFO: Using SWA configuration file: " +:+ githubActionFile)) ;;;
  say (console_info_config config) ;;;
  ret (RetConfig config).

(** Lines 144-235: from the parsed document to the returned [config]. *)
Definition fromDescriptor (cwd : string) (overrideConfig : option PartialConfig)
    (githubActionFile : string) (swaYaml : JsVal) : Eff Returned :=
  withBlock <- lift (swaBuildConfigWith githubActionFile swaYaml) ;;
  c <- lift (destructure withBlock) ;;
  configFrom cwd overrideConfig githubActionFile c.

(** Lines 112-236. *)
Definition readConfigFile (w : Process) (overrideConfig : option PartialConfig)
  : Eff Returned :=
  if negb (existsSync w (githubActionFolder w)) then
    say (console_warn warningMessage) ;;;
    ret (RetOverride overrideConfig)
  else
    listing <- lift (readdirSync w (githubActionFolder w)) ;;
    match last (List.filter isSwaWorkflowFile listing) with
    | None =>
        say (console_warn warningMessage) ;;;
        ret (RetOverride overrideConfig)
    | Some githubActionFile =>
        if String.eqb githubActionFile "" || existsSync w githubActionFile then
          say (console_warn warningMessage) ;;;
          ret (RetOverride overrideConfig)
        else
          let githubActionFile :=
            path.resolve (cwd w) [githubActionFolder w; githubActionFile] in
          githubActionContent <- lift (readFileSync w githubActionFile) ;;
          swaYaml <- lift (YAML_parse githubActionContent) ;;
          fromDescriptor (cwd w) overrideConfig githubActionFile swaYaml
    end.

(** The descriptor [readConfigFile] reads in [w]: the last matching
    entry of the workflow folder, not shadowed by an entry of the same
    name under the working directory, read and parsed to [swaYaml]. *)
Definition parsedDescriptor (w : Process) (githubActionFile : string)
    (swaYaml : JsVal) : Prop :=
  exists listing file content,
    lookupPath w (githubActionFolder w) = Some (Dir listing) /\
    last (List.filter isSwaWorkflowFile listing) = Some file /\
    lookupPath w file = None /\
    githubActionFile = path.resolve (cwd w) [githubActionFolder w; file] /\
    lookupPath w githubActionFile = Some (File content) /\
    YAML_parse content = Ok swaYaml.

End Resolver.

(** ** Notions used to state the properties *)

(** [value] is what the destructuring of lines 180-186 binds for [key]:
    the property of the [with] block when it has one, [default] when the
    property is omitted. *)
Definition destructured (withBlock : JsVal) (key : string) (default value : JsVal) : Prop :=
  match prop withBlock key with
  | Some v => value = v
  | None => value = default
  end.

(** No separator occurs in [s]. *)
Fixpoint noSlash (s : string) : Prop :=
  match s with
  | EmptyString => True
  | String c rest => c <> path.slash /\ noSlash rest
  end.

(** A plain name: a segment that [normalizeString] keeps on an absolute
    path. *)
Definition plainName (seg : string) : Prop :=
  seg <> "" /\ seg <> "." /\ seg <> ".." /\ noSlash seg.

(** The segments an absolute path is normalised to. *)
Definition keptSegments (p : string) : list string :=
  rev (fold_left (path.pushSegment false) (path.segments p) []).

(** An absolute path that [path.normalize] leaves as it is. *)
Definition absoluteNormalized (p : string) : Prop :=
  path.isAbsolute p = true /\ path.normalize p = p.



(** ** A sample project

    [/proj] holds one workflow file whose deploy step sets
    [app_location: "client"] and [api_location: "server"]. *)

Inductive SampleRuntime : Type := sample_dotnet | sample_node.

#[global] Instance SampleRuntime_eq_dec : EqDecision SampleRuntime.
Proof. solve_decision. Defined.

Definition sampleWith : JsVal :=
  JObj {[ "app_location" := JStr "client"; "api_location" := JStr "server" ]}.

Definition sampleStep (withBlock : JsVal) : JsVal :=
  JObj {[ "uses" := JStr "Azure/static-web-apps-deploy@v0.0.1-preview";
          "with" := withBlock ]}.

Definition sampleWorkflow (steps : list JsVal) : JsVal :=
  JObj {[ "jobs" := JObj {[ "build_and_deploy_job" := JObj {[ "steps" := JArr steps ]} ]} ]}.

Definition checkoutStep : JsVal :=
  JObj {[ "uses" := JStr "actions/checkout@v2" ]}.

(** A parser that knows three documents by their text. *)
Definition sampleParse (content : string) : Exc JsVal :=
  if String.eqb content "deploy client server" then
    Ok (sampleWorkflow [checkoutStep; sampleStep sampleWith])
  else if String.eqb content "checkout only" then
    Ok (sampleWorkflow [checkoutStep])
  else if String.eqb content "deploy dotnet" then
    Ok (sampleWorkflow [sampleStep (JObj {[ "app_location" := JStr "app";
                                           "app_artifact_location" := JStr "dist";
                                           "app_build_command" := JStr "dotnet publish" ]})])
  else Thrown (SyntaxError "unexpected input").

Definition sampleFile : string := "azure-static-web-apps-proj.yml".

Definition sampleProject (content : string) : Process :=
  {| cwd := "/proj";
     files := {[ "/proj" := Dir [".github"; "app"; "client"; "server"];
                 "/proj/.github" := Dir ["workflows"];
                 "/proj/.github/workflows" := Dir ["ci.yml"; sampleFile];
                 "/proj/.github/workflows/ci.yml" := File "checkout only";
                 "/proj/.github/workflows/azure-static-web-apps-proj.yml" := File content;
                 "/proj/app" := Dir [];
                 "/proj/client" := Dir [];
                 "/proj/server" := Dir [] ]} |}.

(** The same project with a file of the workflow's name at its root. *)
Definition shadowedProject (content : string) : Process :=
  {| cwd := "/proj";
     files := <[ "/proj" := Dir [".github"; "app"; sampleFile; "client"; "server"] ]>
                (<[ "/proj/azure-static-web-apps-proj.yml" := File "" ]>
                   (files (sampleProject content))) |}.

(** A project without workflow folder. *)
Definition bareProject : Process :=
  {| cwd := "/proj";
     files := {[ "/proj" := Dir ["client"]; "/proj/client" := Dir [] ]} |}.

Definition sampleDetect (runtime : SampleRuntime) (appLocation : string) : SampleRuntime :=
  runtime.

Definition noOverride : PartialConfig :=
  {| override_appBuildCommand := None; override_apiBuildCommand := None;
     override_appLocation := None; override_apiLocation := None;
     override_appArtifactLocation := None |}.

Definition sampleDescriptorPath : string :=
  "/proj/.github/workflows/azure-static-web-apps-proj.yml".

Definition clientServerWorkflow : JsVal :=
  sampleWorkflow [checkoutStep; sampleStep sampleWith].

(** The configuration the scenario of the specification expects. *)
Definition expectedScenarioConfig : GithubActionSWAConfig :=
  {| appBuildCommand := JStr "npm run build --if-present";
     apiBuildCommand := JStr "npm run build --if-present";
     appLocation := "/proj/client";
     apiLocation := "/proj/server";
     appArtifactLocation := "/proj/client" |}.

(** The configuration readConfigFile returns in that scenario. *)
Definition scenarioConfig : GithubActionSWAConfig :=
  {| appBuildCommand := JStr "npm run build --if-present";
     apiBuildCommand := JStr "npm run build --if-present";
     appLocation := "/proj/client";
     apiLocation := "/proj/server";
     appArtifactLocation := "/proj/client/" |}.

Definition webOverride : PartialConfig :=
  {| override_appBuildCommand := Some "make app";
     override_apiBuildCommand := Some "make api";
     override_appLocation := Some "web";
     override_apiLocation := Some "functions";
     override_appArtifactLocation := Some "web/dist" |}.

Definition clientOverride : PartialConfig :=
  {| override_appBuildCommand := None; override_apiBuildCommand := None;
     override_appLocation := Some "client"; override_apiLocation := None;
     override_appArtifactLocation := None |}.

(** ** Paths without [.] and [..] segments

    Notions used to give the resolved locations in closed form. *)

(** No segment of [p] is ["."] or [".."]. *)
Definition dotFree (p : string) : bool :=
  forallb (fun seg => negb (String.eqb seg "." || String.eqb seg ".."))
    (path.segments p).

(** The non-empty segments of [p], in order. *)
Definition names (p : string) : list string :=
  List.filter (fun seg => negb (String.eqb seg "")) (path.segments p).

(** The absolute path made of the given names, with a trailing separator
    when [trailing]; the root when there is no name. *)
Definition absPath (segs : list string) (trailing : bool) : string :=
  match segs with
  | [] => "/"
  | _ => "/" +:+ path.glue segs +:+ (if trailing then "/" else "")
  end.

(** The nested folder of a .NET build (line 200). *)
Definition dotnetPublish : list string := ["bin"; "Debug"; "netstandard2.1"; "publish"].

(** [typeof v === "string"] *)
Definition isString (v : JsVal) : bool :=
  match v with
  | JStr _ => true
  | _ => false
  end.

(** The workflow file readConfigFile goes on to read: the last matching
    entry of the folder (lines 124-127), no entry of that bare name being
    found from the working directory (line 129), resolved against the
    folder (line 134). *)
Definition selectedDescriptor (w : Process) (githubActionFile : string) : Prop :=
  exists listing file,
    lookupPath w (githubActionFolder w) = Some (Dir listing) /\
    last (List.filter isSwaWorkflowFile listing) = Some file /\
    lookupPath w file = None /\
    githubActionFile = path.resolve (cwd w) [githubActionFolder w; file].

(** ** The other exports of utils.ts: response, validateCookie,
    getProviderFromCookie

    Their arguments are typed [any]; they are taken here among the data
    values of [JsVal], [None] standing for [undefined]. *)

(** [process.env], as far as utils.ts reads it. *)
Record ProcessEnv : Type := {
  env_DEBUG : option string;
  env_StaticWebAppsAuthCookie : option string
}.

(** ToBoolean of an environment variable. *)
Definition envTruthy (v : option string) : bool :=
  match v with
  | Some s => negb (String.eqb s "")
  | None => false
  end.

(** The properties [response] destructures from its argument (line 19). *)
Record ResponseOptions : Type := {
  opt_context : option JsVal;
  opt_status : option JsVal;
  opt_headers : option JsVal;
  opt_cookies : option JsVal;
  opt_body : option JsVal
}.

(** The object [response] returns (lines 66-75).  A header may be there
    with the value [undefined], which is [Some None] in a lookup. *)
Record Response : Type := {
  res_status : JsVal;
  res_cookies : option JsVal;
  res_headers : gmap string (option JsVal);
  res_body : JsVal
}.

(** The elements of a sequence under their indices. *)
Definition indexed (items : list JsVal) : gmap string JsVal :=
  list_to_map (imap (fun i item => (pretty i, item)) items).

(** A string by UTF-16 code units.  A string is held here as the bytes
    of its UTF-8 form, while the engine indexes it by code unit: a
    character of one to three bytes is one code unit; a character of
    four bytes is two, its surrogates, each written here in the
    three-byte form of its number.  A sequence of bytes that is the
    UTF-8 form of no string stands for no string of the code. *)

(** A byte [10xxxxxx], which continues a character. *)
Definition continuationByte (c : ascii) : bool :=
  let n := N_of_ascii c in (128 <=? n)%N && (n <? 192)%N.

(** The continuation bytes a string starts with, and the characters
    after them, each with its bytes. *)
Fixpoint utf8Groups (s : string) : string * list string :=
  match s with
  | EmptyString => (EmptyString, [])
  | String c rest =>
      let (continuation, characters) := utf8Groups rest in
      if continuationByte c then (String c continuation, characters)
      else (EmptyString, String c continuation :: characters)
  end.

Definition byteString (n : N) : string := String (ascii_of_N n) EmptyString.

(** The three-byte form of the code unit [u], for [u] from 0x800 on. *)
Definition unitBytes (u : N) : string :=
  byteString (224 + u / 4096) +:+ byteString (128 + (u / 64) mod 64)
    +:+ byteString (128 + u mod 64).

(** The code units of one character. *)
Definition unitsOf (character : string) : list string :=
  match character with
  | String b0 (String b1 (String b2 (String b3 EmptyString))) =>
      let low c := (N_of_ascii c mod 64)%N in
      let point :=
        ((N_of_ascii b0 mod 8) * 262144 + low b1 * 4096 + low b2 * 64 + low b3)%N in
      let offset := (point - 65536)%N in
      [unitBytes (55296 + offset / 1024); unitBytes (56320 + offset mod 1024)]
  | _ => [character]
  end.

Definition codeUnits (s : string) : list string :=
  flat_map unitsOf (snd (utf8Groups s)).

(** What an object spread [{...v}] copies: the own properties of a
    mapping, the elements of a sequence and the code units of a string
    under their indices, nothing from any other value. *)
Definition spread (v : option JsVal) : gmap string JsVal :=
  match v with
  | Some (JObj props) => props
  | Some (JArr items) => indexed items
  | Some (JStr s) => indexed (JStr <$> codeUnits s)
  | _ => ∅
  end.

Definition contextMessage : string :=
  "TypeError: context must be a valid Azure Functions context object. "
    +:+ "See https://docs.microsoft.com/en-us/azure/azure-functions/functions-reference-node#context-object".

Definition statusMessage : string := "TypeError: status code must be a number.".

Definition cookieMessage : string := "TypeError: cookie value must be a string".

(** The own properties of [headers] after lines 32-38: those of the
    caller's value with [location] set anew when that value is truthy;
    none when it is falsy. *)
Definition headersOf (DEBUG : bool) (headers : option JsVal)
  : gmap string (option JsVal) :=
  match headers with
  | Some h =>
      if truthy h
      then <[ "location" := if DEBUG then Some JNull else prop h "location" ]>
             (Some <$> spread (Some h))
      else ∅
  | None => ∅
  end.

(** The context has a truthy [bindingData] (line 20). *)
Definition validContext (o : ResponseOptions) : bool :=
  match opt_context o with
  | Some context => truthy context && truthy_undef (prop context "bindingData")
  | None => false
  end.

(** [typeof status === "number"] (line 27). *)
Definition numericStatus (o : ResponseOptions) : bool :=
  match opt_status o with
  | Some (JNum _) => true
  | _ => false
  end.

Section Response.

(** The text [JSON.stringify(..., null, 2)] returns at lines 44-63 in
    the call at hand, for the object made of [location], the spreads of
    [cookies], of [headers] and of [context.bindingData].  It prints the
    keys in their order, which a mapping does not record here, so it is
    given with the call; on data values JSON.stringify always returns a
    string. *)
Variable debugText : string.

(** Lines 19-77. *)
Definition response (env : ProcessEnv) (o : ResponseOptions) : Exc Response :=
  context <-? orThrow (opt_context o) (Error contextMessage) ;;
  bindingData <-? orThrow (prop context "bindingData") (Error contextMessage) ;;
  match opt_status o with
  | Some (JNum status) =>
      let DEBUG := envTruthy (env_DEBUG env) in
      let headers := headersOf DEBUG (opt_headers o) in
      let body := match opt_body o with Some body => body | None => JStr "" end in
      let body := if truthy body then body else JNull in
      let body :=
        if DEBUG then
          if truthy body then body else JStr debugText
        else body in
      Ok {| res_status := JNum status;
            res_cookies := opt_cookies o;
            res_headers :=
              headers ∪ {[ "status" := Some (JNum status);
                           "Content-Type" := Some (JStr "application/json") ]};
            res_body := body |}
  | _ => Thrown (Error statusMessage)
  end.

End Response.

Section Cookies.

(** [cookie.parse] of the cookie package: the pairs of a Cookie header. *)
Variable cookie_parse : string -> gmap string string.

(** Lines 79-91. *)
Definition validateCookie (env : ProcessEnv) (cookieValue : option JsVal) : Exc bool :=
  match cookieValue with
  | Some (JStr cookieValue) =>
      let cookies := cookie_parse cookieValue in
      match cookies !! "StaticWebAppsAuthCookie" with
      | Some value =>
          if negb (String.eqb value "")
          then Ok (bool_decide (Some value = env_StaticWebAppsAuthCookie env))
          else Ok false
      | None => Ok false
      end
  | _ => Thrown (Error cookieMessage)
  end.

(** Lines 94-101; the result may be [undefined]. *)
Definition getProviderFromCookie (cookieValue : option JsVal) : Exc (option string) :=
  match cookieValue with
  | Some (JStr cookieValue) =>
      let cookies := cookie_parse cookieValue in
      Ok (cookies !! "StaticWebAppsAuthCookie__PROVIDER")
  | _ => Thrown (Error cookieMessage)
  end.

End Cookies.

(** ** More sample projects *)

Definition rootApiWith : JsVal :=
  JObj {[ "app_location" := JStr "/"; "api_location" := JStr "";
          "app_artifact_location" := JStr "build" ]}.

Definition fullWith : JsVal :=
  JObj {[ "app_location" := JStr "client/"; "api_location" := JStr "services/api";
          "app_artifact_location" := JStr "/dist";
          "app_build_command" := JStr "npm run build";
          "api_build_command" := JStr "npm run build:api" ]}.

(** A second parser, knowing more documents by their text. *)
Definition sampleParseMore (content : string) : Exc JsVal :=
  if String.eqb content "empty" then Ok JNull
  else if String.eqb content "root api" then
    Ok (sampleWorkflow [checkoutStep; sampleStep rootApiWith])
  else if String.eqb content "full" then
    Ok (sampleWorkflow [checkoutStep; sampleStep fullWith])
  else if String.eqb content "defaults" then
    Ok (sampleWorkflow [sampleStep (JObj ∅)])
  else if String.eqb content "two deploy steps" then
    Ok (sampleWorkflow [checkoutStep; sampleStep sampleWith; sampleStep fullWith])
  else if String.eqb content "null step" then
    Ok (sampleWorkflow [JNull; sampleStep sampleWith])
  else if String.eqb content "numeric location" then
    Ok (sampleWorkflow [sampleStep (JObj {[ "app_location" := JNum 5%float ]})])
  else if String.eqb content "tabs" then
    Thrown (SyntaxError "tabs are not allowed")
  else sampleParse content.

(** A project in which .github/workflows is a regular file. *)
Definition workflowsFileProject : Process :=
  {| cwd := "/proj";
     files := {[ "/proj" := Dir [".github"];
                 "/proj/.github" := Dir ["workflows"];
                 "/proj/.github/workflows" := File "" ]} |}.

(** An override of the app location alone. *)
Definition appOnlyOverride : PartialConfig :=
  {| override_appBuildCommand := None; override_apiBuildCommand := None;
     override_appLocation := Some "web"; override_apiLocation := None;
     override_appArtifactLocation := None |}.

(** A project with two matching workflow files, and one whose only
    matching entry is a directory. *)
Definition twoWorkflowsProject : Process :=
  {| cwd := "/proj";
     files := {[ "/proj" := Dir [".github"];
                 "/proj/.github" := Dir ["workflows"];
                 "/proj/.github/workflows" :=
                   Dir ["azure-static-web-apps-old.yml"; sampleFile; "ci.yml"];
                 "/proj/.github/workflows/azure-static-web-apps-old.yml" := File "tabs";
                 "/proj/.github/workflows/azure-static-web-apps-proj.yml" :=
                   File "deploy client server";
                 "/proj/.github/workflows/ci.yml" := File "checkout only" ]} |}.

Definition workflowFolderProject : Process :=
  {| cwd := "/proj";
     files := {[ "/proj" := Dir [".github"];
                 "/proj/.github" := Dir ["workflows"];
                 "/proj/.github/workflows" := Dir [sampleFile];
                 "/proj/.github/workflows/azure-static-web-apps-proj.yml" := Dir [] ]} |}.

Definition buildOnlyOverride : PartialConfig :=
  {| override_appBuildCommand := Some "make app";
     override_apiBuildCommand := Some "make api";
     override_appLocation := Some ""; override_apiLocation := None;
     override_appArtifactLocation := None |}.

Definition absoluteOverride : PartialConfig :=
  {| override_appBuildCommand := None; override_apiBuildCommand := None;
     override_appLocation := Some "/srv/app"; override_apiLocation := Some "srv/api/";
     override_appArtifactLocation := None |}.

(** A caller of response: a redirect with two headers of its own. *)
Definition sampleContext : JsVal :=
  JObj {[ "bindingData" := JObj {[ "provider" := JStr "github" ]} ]}.

Definition redirectOptions : ResponseOptions :=
  {| opt_context := Some sampleContext;
     opt_status := Some (JNum 302%float);
     opt_headers := Some (JObj {[ "location" := JStr "/login";
                                  "Content-Type" := JStr "text/html" ]});
     opt_cookies := None;
     opt_body := Some (JStr "") |}.

Definition plainOptions : ResponseOptions :=
  {| opt_context := Some sampleContext;
     opt_status := Some (JNum 200%float);
     opt_headers := None;
     opt_cookies := None;
     opt_body := Some (JStr "ok") |}.

Definition debugEnv : ProcessEnv :=
  {| env_DEBUG := Some "1"; env_StaticWebAppsAuthCookie := None |}.

Definition plainEnv : ProcessEnv :=
  {| env_DEBUG := None; env_StaticWebAppsAuthCookie := Some "s3cret" |}.

(** A debug text and a stand-in for cookie.parse. *)
Definition sampleDebugText : string := "{ }".

Definition sampleCookieParse (header : string) : gmap string string :=
  if String.eqb header "StaticWebAppsAuthCookie=s3cret"
  then {[ "StaticWebAppsAuthCookie" := "s3cret" ]}
  else ∅.

(** The [with] block of the numeric-location document and the fields
    destructured from it. *)
Definition numericWith : JsVal := JObj {[ "app_location" := JNum 5%float ]}.

Definition numericFields : SwaBuildConfig :=
  {| app_build_command := JStr "npm run build --if-present";
     api_build_command := JStr "npm run build --if-present";
     app_location := JNum 5%float;
     app_artifact_location := JStr path.sep;
     api_location := JStr "api" |}.

(** The fields destructured from [fullWith]. *)
Definition fullFields : SwaBuildConfig :=
  {| app_build_command := JStr "npm run build";
     api_build_command := JStr "npm run build:api";
     app_location := JStr "client/";
     app_artifact_location := JStr "/dist";
     api_location := JStr "services/api" |}.



(** * Properties *)

(** ** Facts about [path] *)

Module pathFacts.
Import path.

(** The examples of Node's documentation of [path]. *)
Example normalize_doc :
  normalize "/foo/bar//baz/asdf/quux/.." = "/foo/bar/baz/asdf".
Proof. reflexivity. Qed.

Example join_doc :
  join ["/foo"; "bar"; "baz/asdf"; "quux"; ".."] = "/foo/bar/baz/asdf".
Proof. reflexivity. Qed.

Example resolve_doc :
  resolve "/home/myself/node" ["/foo/bar"; "./baz"] = "/foo/bar/baz" /\
  resolve "/home/myself/node" ["/foo/bar"; "/tmp/file/"] = "/tmp/file" /\
  resolve "/home/myself/node" ["wwwroot"; "static_files/png/"; "../gif/image.gif"]
  = "/home/myself/node/wwwroot/static_files/gif/image.gif".
Proof. repeat split. Qed.

(** A trailing separator survives [normalize], hence [join]. *)
Example join_separator : join ["/proj/client"; sep] = "/proj/client/".
Proof. reflexivity. Qed.

Lemma append_nil (t : string) : "" +:+ t = t.
Proof. reflexivity. Qed.

Lemma append_cons (c : ascii) (s t : string) : String c s +:+ t = String c (s +:+ t).
Proof. reflexivity. Qed.

Lemma append_empty_r (s : string) : s +:+ "" = s.
Proof.
  induction s as [|c s IH]; [reflexivity |]. now rewrite append_cons, IH.
Qed.

Lemma append_assoc (s t u : string) : (s +:+ t) +:+ u = s +:+ (t +:+ u).
Proof.
  induction s as [|c s IH]; [reflexivity |]. now rewrite !append_cons, IH.
Qed.

Lemma segments_not_nil (p : string) : segments p <> [].
Proof.
  destruct p as [|c p]; cbn; [discriminate |].
  destruct (Ascii.eqb c slash); [discriminate |].
  destruct (segments p); discriminate.
Qed.

Lemma segments_noSlash (p : string) : Forall noSlash (segments p).
Proof.
  induction p as [|c p IH]; cbn.
  - repeat constructor.
  - destruct (Ascii.eqb_spec c slash) as [-> | Hc].
    + constructor; [exact I | exact IH].
    + destruct (segments p) as [|seg segs]; [repeat constructor; assumption |].
      inversion IH; subst. constructor; [split; assumption | assumption].
Qed.

Lemma segments_single (s : string) : noSlash s -> segments s = [s].
Proof.
  induction s as [|c s IH]; cbn; [reflexivity |].
  intros [Hc Hs]. destruct (Ascii.eqb_spec c slash); [contradiction |].
  now rewrite (IH Hs).
Qed.

Lemma segments_cut (s t : string) :
  noSlash s -> segments (s +:+ String slash t) = s :: segments t.
Proof.
  induction s as [|c s IH]; [reflexivity |].
  intros [Hc Hs]. rewrite append_cons. cbn.
  destruct (Ascii.eqb_spec c slash); [contradiction |].
  now rewrite (IH Hs).
Qed.

Lemma segments_glue (segs : list string) :
  segs <> [] -> Forall noSlash segs -> segments (glue segs) = segs.
Proof.
  induction segs as [|seg segs IH]; [congruence |].
  intros _ Hall. inversion Hall as [|? ? Hseg Hsegs]; subst.
  destruct segs as [|seg' segs].
  - cbn. now apply segments_single.
  - change (glue (seg :: seg' :: segs)) with (seg +:+ String slash (glue (seg' :: segs))).
    rewrite segments_cut by assumption. f_equal. apply IH; [discriminate | assumption].
Qed.

Lemma segments_trailing (s : string) : segments (s +:+ "/") = (segments s ++ [""])%list.
Proof.
  induction s as [|c s IH]; [reflexivity |]. rewrite append_cons. cbn.
  destruct (Ascii.eqb c slash).
  - now rewrite IH.
  - rewrite IH. pose proof (segments_not_nil s) as Hne.
    destruct (segments s); [congruence | reflexivity].
Qed.

Lemma glue_names_not_empty (segs : list string) :
  segs <> [] -> Forall plainName segs -> glue segs <> "".
Proof.
  destruct segs as [|seg segs]; [congruence |].
  intros _ Hall. inversion Hall as [|? ? (Hne & _) _]; subst.
  destruct seg; [congruence |]. destruct segs; cbn; [discriminate |].
  rewrite append_cons. discriminate.
Qed.

Lemma trailingSeparator_append (s t : string) :
  t <> "" -> trailingSeparator (s +:+ t) = trailingSeparator t.
Proof.
  intros Ht. induction s as [|c s IH]; [reflexivity |].
  rewrite append_cons. cbn. rewrite <- IH. destruct (s +:+ t) eqn:E; [| reflexivity].
  destruct s; [rewrite append_nil in E; congruence | discriminate].
Qed.

Lemma trailingSeparator_noSlash (s : string) : noSlash s -> trailingSeparator s = false.
Proof.
  induction s as [|c s IH]; cbn; [reflexivity |].
  intros [Hc Hs]. destruct s; [now apply Ascii.eqb_neq | now apply IH].
Qed.

Lemma trailingSeparator_glue (segs : list string) :
  Forall plainName segs -> trailingSeparator (glue segs) = false.
Proof.
  induction segs as [|seg segs IH]; [reflexivity |].
  intros Hall. inversion Hall as [|? ? Hseg Hsegs]; subst.
  destruct segs as [|seg' segs].
  - cbn. apply trailingSeparator_noSlash, Hseg.
  - change (glue (seg :: seg' :: segs)) with (seg +:+ ("/" +:+ glue (seg' :: segs))).
    rewrite trailingSeparator_append by discriminate.
    rewrite trailingSeparator_append; [now apply IH |].
    apply glue_names_not_empty; [discriminate | assumption].
Qed.

(** On an absolute path every segment [normalizeString] keeps is a
    plain name. *)
Lemma pushSegment_plain (res : list string) (seg : string) :
  Forall plainName res -> noSlash seg -> Forall plainName (pushSegment false res seg).
Proof.
  intros Hres Hseg. unfold pushSegment.
  destruct (String.eqb_spec seg ""); [assumption |].
  destruct (String.eqb_spec seg "."); [assumption |]. cbn.
  destruct (String.eqb_spec seg "..").
  - destruct res as [|top below]; [constructor |].
    inversion Hres; subst. destruct (String.eqb top ".."); assumption.
  - constructor; [repeat split; assumption | assumption].
Qed.

Lemma fold_pushSegment_plain (segs res : list string) :
  Forall plainName res -> Forall noSlash segs ->
  Forall plainName (fold_left (pushSegment false) segs res).
Proof.
  revert res. induction segs as [|seg segs IH]; intros res Hres Hsegs; cbn; [assumption |].
  inversion Hsegs; subst. apply IH; [now apply pushSegment_plain | assumption].
Qed.

(** Plain names are pushed one after the other. *)
Lemma fold_pushSegment_names (segs res : list string) :
  Forall plainName segs ->
  fold_left (pushSegment false) segs res = (rev segs ++ res)%list.
Proof.
  revert res. induction segs as [|seg segs IH]; intros res Hsegs; cbn; [reflexivity |].
  inversion Hsegs as [|? ? (H1 & H2 & H3 & _) Hrest]; subst.
  rewrite IH by assumption. rewrite <- app_assoc. cbn. do 2 f_equal.
  unfold pushSegment.
  destruct (String.eqb_spec seg ""); [contradiction |].
  destruct (String.eqb_spec seg "."); [contradiction |]. cbn.
  destruct (String.eqb_spec seg ".."); [contradiction | reflexivity].
Qed.

Lemma fold_pushSegment_last_empty (segs res : list string) :
  fold_left (pushSegment false) (segs ++ [""]) res
  = fold_left (pushSegment false) segs res.
Proof. now rewrite fold_left_app. Qed.

Lemma plainName_noSlash (segs : list string) : Forall plainName segs -> Forall noSlash segs.
Proof.
  intros Hkept. eapply Forall_impl; [exact Hkept |]. now intros seg (_ & _ & _ & H).
Qed.

Lemma keptSegments_kept (p : string) : Forall plainName (keptSegments p).
Proof.
  unfold keptSegments. apply Forall_rev, fold_pushSegment_plain;
    [constructor | apply segments_noSlash].
Qed.

Lemma normalize_absolute_eq (p : string) :
  isAbsolute p = true ->
  normalize p =
    match keptSegments p with
    | [] => "/"
    | segs => "/" +:+ glue segs +:+ (if trailingSeparator p then "/" else "")
    end.
Proof.
  intros Habs. unfold normalize, normalizeString.
  destruct (String.eqb_spec p "") as [-> | _]; [discriminate |].
  rewrite Habs. cbn [negb].
  change (rev (fold_left (pushSegment false) (segments p) [])) with (keptSegments p).
  pose proof (keptSegments_kept p) as Hkept.
  destruct (keptSegments p) as [|seg segs] eqn:E; [reflexivity |].
  destruct (String.eqb_spec (glue (seg :: segs)) "") as [Hempty | _]; [| reflexivity].
  exfalso. revert Hempty. apply glue_names_not_empty; [discriminate | assumption].
Qed.

(** [path.normalize] keeps an absolute path absolute. *)
Lemma normalize_isAbsolute (p : string) :
  isAbsolute p = true -> isAbsolute (normalize p) = true.
Proof.
  intros Habs. rewrite normalize_absolute_eq by assumption.
  destruct (keptSegments p); reflexivity.
Qed.

Lemma keptSegments_of_normal (segs : list string) (trailing : bool) :
  segs <> [] -> Forall plainName segs ->
  keptSegments ("/" +:+ glue segs +:+ (if trailing then "/" else "")) = segs.
Proof.
  intros Hne Hkept. unfold keptSegments.
  change ("/" +:+ glue segs +:+ (if trailing then "/" else ""))
    with (String slash (glue segs +:+ (if trailing then "/" else ""))).
  cbn [segments]. rewrite Ascii.eqb_refl. cbn [fold_left].
  change (pushSegment false [] "") with (@nil string).
  destruct trailing.
  - rewrite segments_trailing, fold_pushSegment_last_empty,
      segments_glue by (try apply plainName_noSlash; assumption).
    rewrite fold_pushSegment_names by assumption.
    now rewrite app_nil_r, rev_involutive.
  - rewrite append_empty_r, segments_glue by (try apply plainName_noSlash; assumption).
    rewrite fold_pushSegment_names by assumption.
    now rewrite app_nil_r, rev_involutive.
Qed.

(** [path.normalize] leaves a normalised absolute path as it is. *)
Lemma normalize_idempotent (p : string) :
  isAbsolute p = true -> normalize (normalize p) = normalize p.
Proof.
  intros Habs. rewrite (normalize_absolute_eq p Habs).
  pose proof (keptSegments_kept p) as Hkept.
  destruct (keptSegments p) as [|seg segs] eqn:E; [reflexivity |].
  set (trailing := trailingSeparator p).
  rewrite normalize_absolute_eq by reflexivity.
  rewrite keptSegments_of_normal by (try discriminate; assumption).
  f_equal. f_equal.
  change ("/" +:+ glue (seg :: segs) +:+ (if trailing then "/" else ""))
    with (String slash (glue (seg :: segs) +:+ (if trailing then "/" else ""))).
  assert (Hne : glue (seg :: segs) <> "")
    by (apply glue_names_not_empty; [discriminate | assumption]).
  destruct trailing.
  - change (String slash (glue (seg :: segs) +:+ "/"))
      with ("/" +:+ (glue (seg :: segs) +:+ "/")).
    rewrite <- append_assoc, trailingSeparator_append by discriminate. reflexivity.
  - rewrite append_empty_r.
    change (String slash (glue (seg :: segs))) with ("/" +:+ glue (seg :: segs)).
    rewrite trailingSeparator_append by assumption.
    now rewrite trailingSeparator_glue.
Qed.

Lemma glue_isAbsolute (first : string) (rest : list string) :
  isAbsolute first = true -> isAbsolute (glue (first :: rest)) = true.
Proof.
  destruct first as [|c first]; [discriminate |]. intros Habs.
  destruct rest; exact Habs.
Qed.

(** [path.join] from an absolute first argument: the result is absolute
    and [path.normalize] leaves it as it is. *)
Lemma join_absolute (first : string) (rest : list string) :
  isAbsolute first = true ->
  isAbsolute (join (first :: rest)) = true /\
  normalize (join (first :: rest)) = join (first :: rest).
Proof.
  intros Habs. unfold join. cbn [List.filter].
  destruct first as [|c first]; [discriminate |]. cbn [String.eqb negb].
  set (parts := List.filter _ rest).
  assert (Hglue : isAbsolute (glue (String c first :: parts)) = true)
    by now apply glue_isAbsolute.
  split; [now apply normalize_isAbsolute | now apply normalize_idempotent].
Qed.

Lemma glue_snoc (segs : list string) (name : string) :
  segs <> [] -> glue (segs ++ [name]) = glue segs +:+ "/" +:+ name.
Proof.
  induction segs as [|seg segs IH]; [congruence |]. intros _.
  destruct segs as [|seg' segs]; [reflexivity |].
  change (glue ((seg :: seg' :: segs) ++ [name]))
    with (seg +:+ "/" +:+ glue ((seg' :: segs) ++ [name])).
  rewrite IH by discriminate.
  change (glue (seg :: seg' :: segs)) with (seg +:+ "/" +:+ glue (seg' :: segs)).
  now rewrite !append_assoc.
Qed.

(** A plain name resolved from a normalised absolute directory is that
    name directly under the directory. *)
Lemma resolve_plain_name (segs : list string) (name : string) :
  segs <> [] -> Forall plainName segs -> plainName name ->
  resolve ("/" +:+ glue segs) [name] = "/" +:+ glue segs +:+ "/" +:+ name.
Proof.
  intros Hne Hsegs Hname. unfold resolve. cbn [rev app resolveLoop].
  destruct Hname as (Hname & Hdot & Hdots & Hslash).
  destruct (String.eqb_spec name ""); [contradiction |].
  assert (Hrel : isAbsolute name = false).
  { destruct name as [|c name]; [reflexivity |]. destruct Hslash as [Hc _].
    now apply Ascii.eqb_neq. }
  rewrite Hrel. change ("/" +:+ glue segs) with (String slash (glue segs)).
  cbn [String.eqb isAbsolute]. rewrite Ascii.eqb_refl.
  cbn [negb]. unfold normalizeString.
  change (rev (fold_left (pushSegment false) (segments ?p) []))
    with (keptSegments p).
  replace (String slash (glue segs) +:+ "/" +:+ name +:+ "/" +:+ "")
    with ("/" +:+ glue (segs ++ [name]) +:+ (if true then "/" else "")).
  - rewrite (keptSegments_of_normal (segs ++ [name]) true).
    + rewrite glue_snoc by assumption. reflexivity.
    + destruct segs; [congruence | discriminate].
    + apply Forall_app. split; [assumption |]. repeat constructor; assumption.
  - rewrite glue_snoc by assumption. rewrite append_empty_r.
    change (String slash (glue segs)) with ("/" +:+ glue segs).
    now rewrite !append_assoc.
Qed.

End pathFacts.

(** ** Facts about readConfigFile *)

Section ResolverFacts.

Context {RuntimeType : Type} `{EqDecision RuntimeType}.
Variable dotnet : RuntimeType.
Variable detectRuntime : string -> RuntimeType.
Variable YAML_parse : string -> Exc JsVal.

Notation readConfigFile := (readConfigFile dotnet detectRuntime YAML_parse).
Notation fromDescriptor := (fromDescriptor dotnet detectRuntime).
Notation configFrom := (configFrom dotnet detectRuntime).
Notation resolveLocations := (resolveLocations dotnet detectRuntime).
Notation parsedDescriptor := (parsedDescriptor YAML_parse).

(** Runs the console-and-exception plumbing, leaving the stages folded. *)
Ltac run := cbn [bind exc_bind lift ret say throw app negb orb andb].

Example isSwaWorkflowFile_samples :
  isSwaWorkflowFile "azure-static-web-apps-proj.yml" = true /\
  isSwaWorkflowFile "ci.yml" = false /\
  isSwaWorkflowFile "azure-static-web-apps-proj.yaml" = false.
Proof. repeat split. Qed.

Lemma last_filter_true {A} (f : A -> bool) (l : list A) (x : A) :
  last (List.filter f l) = Some x -> f x = true.
Proof.
  intros Hlast. apply last_Some in Hlast as [l' Hl'].
  assert (Hin : In x (List.filter f l)) by (rewrite Hl'; apply in_or_app; right; now left).
  now apply filter_In in Hin.
Qed.

Lemma isSwaWorkflowFile_not_empty (file : string) :
  isSwaWorkflowFile file = true -> String.eqb file "" = false.
Proof. destruct file; [discriminate | reflexivity]. Qed.

(** Once the descriptor is located, read and parsed, readConfigFile is
    lines 144-235 run on the parsed document. *)
Lemma readConfigFile_parsed (w : Process) (overrideConfig : option PartialConfig)
    (githubActionFile : string) (swaYaml : JsVal) :
  parsedDescriptor w githubActionFile swaYaml ->
  readConfigFile w overrideConfig
  = fromDescriptor (cwd w) overrideConfig githubActionFile swaYaml.
Proof.
  intros (listing & file & content & Hdir & Hlast & Hfree & -> & Hfile & Hparse).
  unfold readConfigFile, existsSync, readdirSync, readFileSync.
  rewrite Hdir. run. rewrite Hlast.
  rewrite (isSwaWorkflowFile_not_empty file (last_filter_true _ _ _ Hlast)).
  rewrite Hfree, Hfile. run. rewrite Hparse. run.
  destruct (fromDescriptor _ _ _ _) as [out r]. reflexivity.
Qed.

(** Conversely, a returned configuration object comes from a parsed
    descriptor. *)
Lemma readConfigFile_config (w : Process) (overrideConfig : option PartialConfig)
    (out : list Log) (config : GithubActionSWAConfig) :
  readConfigFile w overrideConfig = (out, Ok (RetConfig config)) ->
  exists githubActionFile swaYaml,
    parsedDescriptor w githubActionFile swaYaml /\
    fromDescriptor (cwd w) overrideConfig githubActionFile swaYaml
    = (out, Ok (RetConfig config)).
Proof.
  unfold readConfigFile, existsSync, readdirSync, readFileSync.
  destruct (lookupPath w (githubActionFolder w)) as [[content | listing] |] eqn:Hdir;
    run; try discriminate.
  destruct (last (List.filter isSwaWorkflowFile listing)) as [file |] eqn:Hlast;
    run; try discriminate.
  rewrite (isSwaWorkflowFile_not_empty file (last_filter_true _ _ _ Hlast)). run.
  destruct (lookupPath w file) eqn:Hfree; run; try discriminate.
  destruct (lookupPath w (path.resolve (cwd w) [githubActionFolder w; file]))
    as [[content | listing'] |] eqn:Hfile; run; try discriminate.
  destruct (YAML_parse content) as [swaYaml | e] eqn:Hparse; run; try discriminate.
  intros Hrun. exists (path.resolve (cwd w) [githubActionFolder w; file]), swaYaml.
  split; [exists listing, file, content; repeat split; assumption |].
  destruct (fromDescriptor _ _ _ _) as [out' r]. exact Hrun.
Qed.

(** Lines 193-235 return the configuration object as soon as the three
    locations resolve. *)
Lemma configFrom_resolved (cwd : string) (overrideConfig : option PartialConfig)
    (githubActionFile : string) (c : SwaBuildConfig) (l : Locations) :
  resolveLocations cwd c = Ok l ->
  configFrom cwd overrideConfig githubActionFile c
  = (infoLines githubActionFile (configOf c (applyOverride cwd overrideConfig l)),
     Ok (RetConfig (configOf c (applyOverride cwd overrideConfig l)))).
Proof. intros Hl. unfold configFrom. rewrite Hl. reflexivity. Qed.

Lemma fromDescriptor_stages (cwd : string) (overrideConfig : option PartialConfig)
    (githubActionFile : string) (swaYaml withBlock : JsVal) (c : SwaBuildConfig) :
  swaBuildConfigWith githubActionFile swaYaml = Ok withBlock ->
  destructure withBlock = Ok c ->
  fromDescriptor cwd overrideConfig githubActionFile swaYaml
  = configFrom cwd overrideConfig githubActionFile c.
Proof.
  intros Hwith Hc. unfold fromDescriptor. rewrite Hwith. run. rewrite Hc. run.
  destruct (configFrom _ _ _ _) as [out r]. reflexivity.
Qed.

(** A returned configuration went through every stage. *)
Lemma fromDescriptor_config (cwd : string) (overrideConfig : option PartialConfig)
    (githubActionFile : string) (swaYaml : JsVal)
    (out : list Log) (config : GithubActionSWAConfig) :
  fromDescriptor cwd overrideConfig githubActionFile swaYaml
  = (out, Ok (RetConfig config)) ->
  exists withBlock c l,
    swaBuildConfigWith githubActionFile swaYaml = Ok withBlock /\
    destructure withBlock = Ok c /\
    resolveLocations cwd c = Ok l /\
    config = configOf c (applyOverride cwd overrideConfig l) /\
    out = infoLines githubActionFile config.
Proof.
  unfold fromDescriptor.
  destruct (swaBuildConfigWith githubActionFile swaYaml) as [withBlock | e] eqn:Hwith;
    run; try discriminate.
  destruct (destructure withBlock) as [c | e] eqn:Hc; run; try discriminate.
  destruct (resolveLocations cwd c) as [l | e] eqn:Hl.
  - rewrite (configFrom_resolved _ _ _ _ _ Hl). run. intros [= <- <-].
    exists withBlock, c, l. repeat split; assumption.
  - unfold configFrom. rewrite Hl. run. discriminate.
Qed.

(** C3. When the folder .github/workflows does not exist, or is a
    directory none of whose entries matches the name pattern,
    readConfigFile does not throw: it writes the one warning and returns
    the overrideConfig argument as it received it ([None] standing for
    undefined), without reading or parsing anything. *)
Theorem degraded_without_descriptor (w : Process) (overrideConfig : option PartialConfig) :
  lookupPath w (githubActionFolder w) = None \/
  (exists listing,
      lookupPath w (githubActionFolder w) = Some (Dir listing) /\
      List.filter isSwaWorkflowFile listing = []) ->
  readConfigFile w overrideConfig
  = ([console_warn warningMessage], Ok (RetOverride overrideConfig)).
Proof.
  intros [Hnone | (listing & Hdir & Hnomatch)];
    unfold readConfigFile, existsSync, readdirSync.
  - rewrite Hnone. reflexivity.
  - rewrite Hdir. run. rewrite Hnomatch. reflexivity.
Qed.

(** What "directly under the working directory" means for the lookup of
    a bare name: with a normalised working directory /d1/.../dn and a
    plain name, the entry looked up is /d1/.../dn/name. *)
Lemma entry_under_cwd (w : Process) (segs : list string) (name : string) :
  cwd w = "/" +:+ path.glue segs -> segs <> [] ->
  Forall plainName segs -> plainName name ->
  lookupPath w name = files w !! (cwd w +:+ "/" +:+ name).
Proof.
  intros Hcwd Hne Hsegs Hname. unfold lookupPath.
  now rewrite Hcwd, pathFacts.resolve_plain_name.
Qed.

(** C9. A matching workflow file can be found and still be ignored: when
    the entry selected in .github/workflows (the last one matching the
    pattern) has a name under which a file or directory also exists
    directly in the working directory (the bare name resolved from the
    working directory, see [entry_under_cwd]), [fs.existsSync] on the
    bare name answers true, and readConfigFile writes the warning and
    returns the overrideConfig argument (or undefined) without reading
    the descriptor. *)
Theorem shadowed_descriptor_ignored (w : Process) (overrideConfig : option PartialConfig)
    (listing : list string) (file : string) (entry : Entry) :
  lookupPath w (githubActionFolder w) = Some (Dir listing) ->
  last (List.filter isSwaWorkflowFile listing) = Some file ->
  files w !! path.resolve (cwd w) [file] = Some entry ->
  existsSync w file = true /\
  readConfigFile w overrideConfig
  = ([console_warn warningMessage], Ok (RetOverride overrideConfig)).
Proof.
  intros Hdir Hlast Hentry.
  assert (Hexists : existsSync w file = true)
    by (unfold existsSync, lookupPath; now rewrite Hentry).
  split; [exact Hexists |].
  unfold readConfigFile, readdirSync. unfold existsSync at 1.
  rewrite Hdir. run. rewrite Hlast, Hexists, orb_true_r. reflexivity.
Qed.

Lemma getProp_truthy (v : JsVal) (key : string) :
  truthy v = true -> getProp v key = Ok (prop v key).
Proof. destruct v; try reflexivity. discriminate. Qed.

Lemma orThrow_Ok (v : option JsVal) (e : exn) (x : JsVal) :
  orThrow v e = Ok x -> v = Some x /\ truthy x = true.
Proof.
  destruct v as [y |]; cbn; [| discriminate].
  destruct (truthy y) eqn:Hy; [| discriminate]. now intros [= ->].
Qed.

(** The [with] block that passes line 173 is truthy. *)
Lemma swaBuildConfigWith_truthy (githubActionFile : string) (swaYaml withBlock : JsVal) :
  swaBuildConfigWith githubActionFile swaYaml = Ok withBlock -> truthy withBlock = true.
Proof.
  unfold swaBuildConfigWith.
  repeat (match goal with
          | |- exc_bind ?m _ = _ -> _ => destruct m; cbn [exc_bind]; [| discriminate]
          end).
  intros Hwith. now apply orThrow_Ok in Hwith.
Qed.

Lemma destructure_truthy (withBlock : JsVal) :
  truthy withBlock = true ->
  destructure withBlock
  = Ok {| app_build_command :=
            orDefault (prop withBlock "app_build_command") (JStr "npm run build --if-present");
          api_build_command :=
            orDefault (prop withBlock "api_build_command") (JStr "npm run build --if-present");
          app_location := orDefault (prop withBlock "app_location") (JStr path.sep);
          app_artifact_location :=
            orDefault (prop withBlock "app_artifact_location") (JStr path.sep);
          api_location := orDefault (prop withBlock "api_location") (JStr "api") |}.
Proof.
  intros Hw. unfold destructure. rewrite !(getProp_truthy _ _ Hw). reflexivity.
Qed.

Lemma orDefault_destructured (withBlock : JsVal) (key : string) (d : JsVal) :
  destructured withBlock key d (orDefault (prop withBlock key) d).
Proof. unfold destructured. destruct (prop withBlock key); reflexivity. Qed.

(** C1 (amended). In every file system in which the working directory is
    /proj and the descriptor readConfigFile selects (the last matching
    file of .github/workflows, with no entry of the same name directly
    under /proj) has a deploy step whose [with] block is exactly
    [{ app_location: "client", api_location: "server" }], and the runtime
    detector does not answer dotnet for the app root, readConfigFile with
    no overrides returns the two default build commands, appLocation
    /proj/client, apiLocation /proj/server, and appArtifactLocation
    /proj/client/ with the trailing separator of the default artifact
    location. *)
Theorem scenario_client_server (w : Process) (githubActionFile : string)
    (swaYaml : JsVal) :
  cwd w = "/proj" ->
  parsedDescriptor w githubActionFile swaYaml ->
  swaBuildConfigWith githubActionFile swaYaml
  = Ok (JObj {[ "app_location" := JStr "client"; "api_location" := JStr "server" ]}) ->
  detectRuntime "/proj/client" <> dotnet ->
  readConfigFile w None
  = (infoLines githubActionFile scenarioConfig, Ok (RetConfig scenarioConfig)).
Proof.
  intros Hcwd Hparsed Hwith Hruntime.
  rewrite (readConfigFile_parsed _ _ _ _ Hparsed), Hcwd.
  set (c := {| app_build_command := JStr "npm run build --if-present";
               api_build_command := JStr "npm run build --if-present";
               app_location := JStr "client";
               app_artifact_location := JStr path.sep;
               api_location := JStr "server" |}).
  assert (Hc : destructure (JObj {[ "app_location" := JStr "client";
                                    "api_location" := JStr "server" ]}) = Ok c)
    by (vm_compute; reflexivity).
  assert (Hl : resolveLocations "/proj" c
               = Ok {| loc_app := "/proj/client"; loc_api := "/proj/server";
                       loc_artifact := "/proj/client/" |}).
  { unfold resolveLocations, c.
    cbn [pathArg exc_bind app_location api_location app_artifact_location truthy].
    replace (path.normalize (path.join ["/proj"; "client"])) with "/proj/client"
      by (vm_compute; reflexivity).
    destruct (decide (detectRuntime "/proj/client" = dotnet)) as [Heq | _];
      [contradiction |].
    vm_compute. reflexivity. }
  rewrite (fromDescriptor_stages _ _ _ _ _ _ Hwith Hc).
  rewrite (configFrom_resolved _ _ _ _ _ Hl). reflexivity.
Qed.

(** The override merge as a whole: when the descriptor alone resolves to
    [config0], the same call with an override record returns too, with
    the build commands of [config0] and each location either recomputed
    from the override or left as in [config0]. *)
Lemma override_merge (w : Process) (o : PartialConfig)
    (out0 : list Log) (config0 : GithubActionSWAConfig) :
  readConfigFile w None = (out0, Ok (RetConfig config0)) ->
  exists out,
    readConfigFile w (Some o)
    = (out,
       Ok (RetConfig
             {| appBuildCommand := appBuildCommand config0;
                apiBuildCommand := apiBuildCommand config0;
                appLocation :=
                  overridden (cwd w) (override_appLocation o) (appLocation config0);
                apiLocation :=
                  overridden (cwd w) (override_apiLocation o) (apiLocation config0);
                appArtifactLocation :=
                  overridden (cwd w) (override_appArtifactLocation o)
                    (appArtifactLocation config0) |})).
Proof.
  intros Hrun.
  apply readConfigFile_config in Hrun as (file & swaYaml & Hparsed & Hrun).
  apply fromDescriptor_config in Hrun as (withBlock & c & l & Hwith & Hc & Hl & -> & _).
  rewrite (readConfigFile_parsed _ _ _ _ Hparsed).
  rewrite (fromDescriptor_stages _ _ _ _ _ _ Hwith Hc).
  rewrite (configFrom_resolved _ _ _ _ _ Hl). eexists. reflexivity.
Qed.

(** C2 (amended). Whenever readConfigFile returns a configuration built
    from a descriptor (the return of line 235) and the override record
    defines appLocation, apiLocation or appArtifactLocation as a
    non-empty string, that field of the returned configuration is
    normalize(join(cwd, value)): the value derived from the descriptor
    and the runtime plays no part in it. *)
Theorem override_replaces_location (w : Process) (o : PartialConfig)
    (out : list Log) (config : GithubActionSWAConfig) :
  readConfigFile w (Some o) = (out, Ok (RetConfig config)) ->
  (forall value, override_appLocation o = Some value -> value <> "" ->
     appLocation config = path.normalize (path.join [cwd w; value])) /\
  (forall value, override_apiLocation o = Some value -> value <> "" ->
     apiLocation config = path.normalize (path.join [cwd w; value])) /\
  (forall value, override_appArtifactLocation o = Some value -> value <> "" ->
     appArtifactLocation config = path.normalize (path.join [cwd w; value])).
Proof.
  intros Hrun.
  apply readConfigFile_config in Hrun as (file & swaYaml & _ & Hrun).
  apply fromDescriptor_config in Hrun as (withBlock & c & l & _ & _ & _ & -> & _).
  cbn [configOf applyOverride appLocation apiLocation appArtifactLocation
         loc_app loc_api loc_artifact].
  repeat split; intros value -> Hvalue; unfold overridden;
    destruct (String.eqb_spec value ""); (contradiction || reflexivity).
Qed.

(** C4. For every descriptor that passes the structural checks, each of
    the five variables bound from its [with] block holds the property of
    that name when the block has it and otherwise its default: the two
    build commands "npm run build --if-present", app location and app
    artifact location the path separator, api location "api"; and these
    five values are what the path resolution of lines 193-235 then
    works on. *)
Theorem omitted_fields_take_defaults (w : Process) (overrideConfig : option PartialConfig)
    (githubActionFile : string) (swaYaml withBlock : JsVal) :
  parsedDescriptor w githubActionFile swaYaml ->
  swaBuildConfigWith githubActionFile swaYaml = Ok withBlock ->
  exists c,
    destructure withBlock = Ok c /\
    destructured withBlock "app_build_command"
      (JStr "npm run build --if-present") (app_build_command c) /\
    destructured withBlock "api_build_command"
      (JStr "npm run build --if-present") (api_build_command c) /\
    destructured withBlock "app_location" (JStr path.sep) (app_location c) /\
    destructured withBlock "app_artifact_location" (JStr path.sep)
      (app_artifact_location c) /\
    destructured withBlock "api_location" (JStr "api") (api_location c) /\
    readConfigFile w overrideConfig
    = configFrom (cwd w) overrideConfig githubActionFile c.
Proof.
  intros Hparsed Hwith.
  pose proof (destructure_truthy _ (swaBuildConfigWith_truthy _ _ _ Hwith)) as Hc.
  eexists. split; [exact Hc |].
  cbn [app_build_command api_build_command app_location app_artifact_location
         api_location].
  repeat (split; [apply orDefault_destructured |]).
  rewrite (readConfigFile_parsed _ _ _ _ Hparsed).
  apply (fromDescriptor_stages _ _ _ _ _ _ Hwith Hc).
Qed.

Lemma resolveLocations_Ok (cwd : string) (c : SwaBuildConfig) (l : Locations) :
  resolveLocations cwd c = Ok l ->
  exists app api artifact,
    app_location c = JStr app /\
    (if truthy (api_location c) then api_location c else JStr path.sep) = JStr api /\
    app_artifact_location c = JStr artifact /\
    loc_app l = path.normalize (path.join [cwd; app]) /\
    loc_api l = path.normalize (path.join [cwd; api]) /\
    loc_artifact l =
      (if decide (detectRuntime (loc_app l) = dotnet)
       then path.join [loc_app l; "bin"; "Debug"; "netstandard2.1"; "publish";
                       path.normalize artifact]
       else path.join [loc_app l; path.normalize artifact]).
Proof.
  unfold resolveLocations.
  destruct (app_location c) as [| | | app | |]; cbn [pathArg exc_bind]; try discriminate.
  destruct (if truthy (api_location c) then api_location c else JStr path.sep)
    as [| | | api | |]; cbn [pathArg exc_bind]; try discriminate.
  destruct (app_artifact_location c) as [| | | artifact | |];
    cbn [pathArg exc_bind]; try discriminate.
  intros [= <-]. exists app, api, artifact. cbn [loc_app loc_api loc_artifact].
  repeat split; reflexivity.
Qed.

(** C5. The runtime detector is asked about the app root, the
    descriptor's app location resolved against the working directory.
    In every returned configuration whose appArtifactLocation is not
    replaced by an override, appArtifactLocation is that app root joined
    with bin, Debug, netstandard2.1, publish and then the normalised
    artifact location of the descriptor (or its default) when the
    detector answers dotnet, and the app root joined directly with that
    artifact location for any other answer. *)
Theorem artifact_location_by_runtime (w : Process) (overrideConfig : option PartialConfig)
    (out : list Log) (config : GithubActionSWAConfig) :
  readConfigFile w overrideConfig = (out, Ok (RetConfig config)) ->
  (forall o value, overrideConfig = Some o ->
     override_appArtifactLocation o = Some value -> value = "") ->
  exists githubActionFile swaYaml withBlock c app artifact,
    parsedDescriptor w githubActionFile swaYaml /\
    swaBuildConfigWith githubActionFile swaYaml = Ok withBlock /\
    destructure withBlock = Ok c /\
    app_location c = JStr app /\
    app_artifact_location c = JStr artifact /\
    let appRoot := path.normalize (path.join [cwd w; app]) in
    appArtifactLocation config =
      (if decide (detectRuntime appRoot = dotnet)
       then path.join [appRoot; "bin"; "Debug"; "netstandard2.1"; "publish";
                       path.normalize artifact]
       else path.join [appRoot; path.normalize artifact]).
Proof.
  intros Hrun Hkeep.
  apply readConfigFile_config in Hrun as (file & swaYaml & Hparsed & Hrun).
  apply fromDescriptor_config in Hrun as (withBlock & c & l & Hwith & Hc & Hl & -> & _).
  apply resolveLocations_Ok in Hl
    as (app & api & artifact & Happ & _ & Hartifact & Hroot & _ & Hloc).
  exists file, swaYaml, withBlock, c, app, artifact.
  repeat (split; [assumption |]). cbv zeta. rewrite <- Hroot, <- Hloc.
  destruct overrideConfig as [o |]; [| reflexivity].
  cbn [configOf applyOverride appArtifactLocation loc_artifact]. unfold overridden.
  destruct (override_appArtifactLocation o) as [value |] eqn:Hvalue; [| reflexivity].
  now rewrite (Hkeep o value eq_refl Hvalue).
Qed.

(** C10. The build commands of a returned configuration do not depend on
    the override record: whatever overrideConfig holds, appBuildCommand
    and apiBuildCommand are the app_build_command and api_build_command
    of the descriptor's [with] block, or "npm run build --if-present"
    where the block omits them. *)
Theorem build_commands_not_overridden (w : Process) (overrideConfig : option PartialConfig)
    (out : list Log) (config : GithubActionSWAConfig) :
  readConfigFile w overrideConfig = (out, Ok (RetConfig config)) ->
  exists githubActionFile swaYaml withBlock,
    parsedDescriptor w githubActionFile swaYaml /\
    swaBuildConfigWith githubActionFile swaYaml = Ok withBlock /\
    appBuildCommand config
    = orDefault (prop withBlock "app_build_command") (JStr "npm run build --if-present") /\
    apiBuildCommand config
    = orDefault (prop withBlock "api_build_command") (JStr "npm run build --if-present").
Proof.
  intros Hrun.
  apply readConfigFile_config in Hrun as (file & swaYaml & Hparsed & Hrun).
  apply fromDescriptor_config in Hrun as (withBlock & c & l & Hwith & Hc & _ & -> & _).
  exists file, swaYaml, withBlock. repeat (split; [assumption |]).
  rewrite (destructure_truthy _ (swaBuildConfigWith_truthy _ _ _ Hwith)) in Hc.
  injection Hc as <-. split; reflexivity.
Qed.

Lemma overridden_absoluteNormalized (cwd : string) (field : option string)
    (current : string) :
  path.isAbsolute cwd = true -> absoluteNormalized current ->
  absoluteNormalized (overridden cwd field current).
Proof.
  intros Hcwd Hcurrent. unfold overridden.
  destruct field as [value |]; [| assumption].
  destruct (String.eqb value ""); [assumption |]. cbn [negb].
  destruct (pathFacts.join_absolute cwd [value] Hcwd) as [Habs Hnorm].
  rewrite Hnorm. split; assumption.
Qed.

Lemma resolveLocations_absoluteNormalized (cwd : string) (c : SwaBuildConfig)
    (l : Locations) :
  path.isAbsolute cwd = true -> resolveLocations cwd c = Ok l ->
  absoluteNormalized (loc_app l) /\ absoluteNormalized (loc_api l) /\
  absoluteNormalized (loc_artifact l).
Proof.
  intros Hcwd Hl.
  apply resolveLocations_Ok in Hl
    as (app & api & artifact & _ & _ & _ & Happ & Hapi & Hartifact).
  assert (Happ' : absoluteNormalized (loc_app l)).
  { rewrite Happ. destruct (pathFacts.join_absolute cwd [app] Hcwd) as [Habs Hnorm].
    rewrite Hnorm. split; assumption. }
  split; [exact Happ' |]. split.
  - rewrite Hapi. destruct (pathFacts.join_absolute cwd [api] Hcwd) as [Habs Hnorm].
    rewrite Hnorm. split; assumption.
  - rewrite Hartifact. destruct Happ' as [Habs _].
    destruct (decide (detectRuntime (loc_app l) = dotnet));
      apply pathFacts.join_absolute; exact Habs.
Qed.

(** C8 (amended). Given an absolute working directory, every
    configuration object readConfigFile builds from a descriptor has
    appLocation, apiLocation and appArtifactLocation absolute and
    normalised.  (The override record handed back when no descriptor is
    used is returned as the caller wrote it.) *)
Theorem returned_config_paths_absolute (w : Process) (overrideConfig : option PartialConfig)
    (out : list Log) (config : GithubActionSWAConfig) :
  path.isAbsolute (cwd w) = true ->
  readConfigFile w overrideConfig = (out, Ok (RetConfig config)) ->
  absoluteNormalized (appLocation config) /\
  absoluteNormalized (apiLocation config) /\
  absoluteNormalized (appArtifactLocation config).
Proof.
  intros Hcwd Hrun.
  apply readConfigFile_config in Hrun as (file & swaYaml & _ & Hrun).
  apply fromDescriptor_config in Hrun as (withBlock & c & l & _ & _ & Hl & -> & _).
  destruct (resolveLocations_absoluteNormalized _ _ _ Hcwd Hl) as (Happ & Hapi & Hartifact).
  destruct overrideConfig as [o |];
    cbn [configOf applyOverride appLocation apiLocation appArtifactLocation
           loc_app loc_api loc_artifact];
    repeat split; try apply overridden_absoluteNormalized;
    first [exact Hcwd | apply Happ | apply Hapi | apply Hartifact].
Qed.

Lemma find_none (steps : list JsVal) :
  Forall (fun step => isDeployStep step = Ok false) steps -> find steps = Ok None.
Proof.
  induction 1 as [| step steps Hstep _ IH]; [reflexivity |].
  cbn [find]. rewrite Hstep. exact IH.
Qed.


(** The step selected by line 165 is a mapping. *)
Lemma isDeployStep_mapping (step : JsVal) :
  isDeployStep step = Ok true -> truthy step = true /\ step <> JNull.
Proof.
  unfold isDeployStep. destruct step; cbn; try discriminate. now split.
Qed.








(** C7 (amended). For every parsed descriptor whose steps form a
    sequence in which the test of line 165 is false for every step (no
    step has a [uses] containing "static-web-apps-deploy"),
    readConfigFile throws an Error whose message is
    invalid property 'jobs.build_and_deploy_job.steps[]' in the SWA
    workflow file "<path of the descriptor>". Make sure it's a valid SWA
    workflow file. *)
Theorem no_deploy_step_message (w : Process) (overrideConfig : option PartialConfig)
    (githubActionFile : string) (swaYaml jobs job : JsVal) (steps : list JsVal) :
  parsedDescriptor w githubActionFile swaYaml ->
  truthy swaYaml = true ->
  prop swaYaml "jobs" = Some jobs -> truthy jobs = true ->
  prop jobs "build_and_deploy_job" = Some job -> truthy job = true ->
  prop job "steps" = Some (JArr steps) ->
  Forall (fun step => isDeployStep step = Ok false) steps ->
  readConfigFile w overrideConfig
  = ([], Thrown (Error ("invalid property 'jobs.build_and_deploy_job.steps[]'"
                          +:+ " in the SWA workflow file " +:+ JsString.dquote
                          +:+ githubActionFile +:+ JsString.dquote
                          +:+ ". Make sure it's a valid SWA workflow file."))).
Proof.
  intros Hparsed Hdoc Hjobs Hjobs' Hjob Hjob' Hsteps Hnone.
  rewrite (readConfigFile_parsed _ _ _ _ Hparsed).
  unfold fromDescriptor, swaBuildConfigWith. cbn [orThrow]. rewrite Hdoc.
  cbn [exc_bind]. rewrite (getProp_truthy _ _ Hdoc), Hjobs. cbn [exc_bind orThrow].
  rewrite Hjobs'. cbn [exc_bind].
  rewrite (getProp_truthy _ _ Hjobs'), Hjob. cbn [exc_bind orThrow].
  rewrite Hjob'. cbn [exc_bind].
  rewrite (getProp_truthy _ _ Hjob'), Hsteps. cbn [exc_bind orThrow truthy callFind].
  rewrite (find_none _ Hnone). cbn [exc_bind orThrow lift bind].
  reflexivity.
Qed.

End ResolverFacts.

Lemma degraded_without_descriptor_witness :
  readConfigFile sample_dotnet (sampleDetect sample_node) sampleParse
    bareProject (Some noOverride)
  = ([console_warn warningMessage], Ok (RetOverride (Some noOverride))).
Proof.
  apply (degraded_without_descriptor sample_dotnet (sampleDetect sample_node) sampleParse
           bareProject (Some noOverride)).
  left. vm_compute. reflexivity.
Defined.

Lemma shadowed_descriptor_ignored_witness :
  existsSync (shadowedProject "deploy client server") sampleFile = true /\
  readConfigFile sample_dotnet (sampleDetect sample_node) sampleParse
    (shadowedProject "deploy client server") None
  = ([console_warn warningMessage], Ok (RetOverride None)).
Proof.
  apply (shadowed_descriptor_ignored sample_dotnet (sampleDetect sample_node) sampleParse
           (shadowedProject "deploy client server") None
           ["ci.yml"; sampleFile] sampleFile (File "")).
  - vm_compute. reflexivity.
  - vm_compute. reflexivity.
  - vm_compute. reflexivity.
Defined.

Lemma sampleProject_parsed :
  parsedDescriptor sampleParse (sampleProject "deploy client server")
    sampleDescriptorPath clientServerWorkflow.
Proof.
  exists ["ci.yml"; sampleFile], sampleFile, "deploy client server".
  repeat split; vm_compute; reflexivity.
Qed.

(** C1, as stated, fails on the sample project: the descriptor is there
    with exactly that [with] block, the runtime is not dotnet, and the
    returned appArtifactLocation is /proj/client/ rather than
    /proj/client. *)
Lemma scenario_artifact_location_differs :
  cwd (sampleProject "deploy client server") = "/proj" /\
  parsedDescriptor sampleParse (sampleProject "deploy client server")
    sampleDescriptorPath clientServerWorkflow /\
  swaBuildConfigWith sampleDescriptorPath clientServerWorkflow
  = Ok (JObj {[ "app_location" := JStr "client"; "api_location" := JStr "server" ]}) /\
  sampleDetect sample_node "/proj/client" <> sample_dotnet /\
  snd (readConfigFile sample_dotnet (sampleDetect sample_node) sampleParse
         (sampleProject "deploy client server") None)
  <> Ok (RetConfig expectedScenarioConfig).
Proof.
  split; [reflexivity |]. split; [exact sampleProject_parsed |].
  split; [vm_compute; reflexivity |]. split; [discriminate |].
  vm_compute. discriminate.
Qed.

Lemma scenario_client_server_witness :
  readConfigFile sample_dotnet (sampleDetect sample_node) sampleParse
    (sampleProject "deploy client server") None
  = (infoLines sampleDescriptorPath scenarioConfig, Ok (RetConfig scenarioConfig)).
Proof.
  apply (scenario_client_server sample_dotnet (sampleDetect sample_node) sampleParse
           (sampleProject "deploy client server") sampleDescriptorPath
           clientServerWorkflow).
  - reflexivity.
  - exists ["ci.yml"; sampleFile], sampleFile, "deploy client server".
    repeat split; vm_compute; reflexivity.
  - vm_compute. reflexivity.
  - discriminate.
Defined.

(** C2, as stated, fails when no descriptor is used: the override record
    defines appLocation and comes back with that string unchanged, not
    with normalize(join(cwd, "client")). *)
Lemma override_returned_unresolved :
  readConfigFile sample_dotnet (sampleDetect sample_node) sampleParse
    bareProject (Some clientOverride)
  = ([console_warn warningMessage], Ok (RetOverride (Some clientOverride))) /\
  override_appLocation clientOverride = Some "client" /\
  "client" <> "" /\
  path.normalize (path.join [cwd bareProject; "client"]) = "/proj/client" /\
  "client" <> path.normalize (path.join [cwd bareProject; "client"]).
Proof. repeat split; vm_compute; (reflexivity || discriminate). Qed.

Lemma override_replaces_location_witness :
  exists out config,
    readConfigFile sample_dotnet (sampleDetect sample_node) sampleParse
      (sampleProject "deploy client server") (Some webOverride)
    = (out, Ok (RetConfig config)) /\
    appLocation config = path.normalize (path.join ["/proj"; "web"]) /\
    apiLocation config = path.normalize (path.join ["/proj"; "functions"]) /\
    appArtifactLocation config = path.normalize (path.join ["/proj"; "web/dist"]).
Proof.
  eexists. eexists. split; [vm_compute; reflexivity |].
  destruct (override_replaces_location sample_dotnet (sampleDetect sample_node) sampleParse
              (sampleProject "deploy client server") webOverride _ _
              ltac:(vm_compute; reflexivity)) as (Happ & Hapi & Hartifact).
  split; [apply Happ; [reflexivity | discriminate] |].
  split; [apply Hapi; [reflexivity | discriminate] |].
  apply Hartifact; [reflexivity | discriminate].
Defined.

Lemma omitted_fields_take_defaults_witness :
  exists c,
    destructure sampleWith = Ok c /\
    destructured sampleWith "app_build_command"
      (JStr "npm run build --if-present") (app_build_command c) /\
    destructured sampleWith "api_build_command"
      (JStr "npm run build --if-present") (api_build_command c) /\
    destructured sampleWith "app_location" (JStr path.sep) (app_location c) /\
    destructured sampleWith "app_artifact_location" (JStr path.sep)
      (app_artifact_location c) /\
    destructured sampleWith "api_location" (JStr "api") (api_location c) /\
    readConfigFile sample_dotnet (sampleDetect sample_node) sampleParse
      (sampleProject "deploy client server") None
    = configFrom sample_dotnet (sampleDetect sample_node) "/proj" None
        sampleDescriptorPath c.
Proof.
  apply (omitted_fields_take_defaults sample_dotnet (sampleDetect sample_node) sampleParse
           (sampleProject "deploy client server") None sampleDescriptorPath
           clientServerWorkflow sampleWith).
  - exists ["ci.yml"; sampleFile], sampleFile, "deploy client server".
    repeat split; vm_compute; reflexivity.
  - vm_compute. reflexivity.
Defined.

Lemma artifact_location_by_runtime_witness :
  exists githubActionFile swaYaml withBlock c app artifact,
    parsedDescriptor sampleParse (sampleProject "deploy dotnet") githubActionFile swaYaml /\
    swaBuildConfigWith githubActionFile swaYaml = Ok withBlock /\
    destructure withBlock = Ok c /\
    app_location c = JStr app /\
    app_artifact_location c = JStr artifact /\
    let appRoot := path.normalize (path.join ["/proj"; app]) in
    "/proj/app/bin/Debug/netstandard2.1/publish/dist" =
      (if decide (sampleDetect sample_dotnet appRoot = sample_dotnet)
       then path.join [appRoot; "bin"; "Debug"; "netstandard2.1"; "publish";
                       path.normalize artifact]
       else path.join [appRoot; path.normalize artifact]).
Proof.
  apply (artifact_location_by_runtime sample_dotnet (sampleDetect sample_dotnet)
           sampleParse (sampleProject "deploy dotnet") (Some clientOverride)
           (infoLines sampleDescriptorPath
              {| appBuildCommand := JStr "dotnet publish";
                 apiBuildCommand := JStr "npm run build --if-present";
                 appLocation := "/proj/client";
                 apiLocation := "/proj/api";
                 appArtifactLocation := "/proj/app/bin/Debug/netstandard2.1/publish/dist" |})
           {| appBuildCommand := JStr "dotnet publish";
              apiBuildCommand := JStr "npm run build --if-present";
              appLocation := "/proj/client";
              apiLocation := "/proj/api";
              appArtifactLocation := "/proj/app/bin/Debug/netstandard2.1/publish/dist" |}).
  - vm_compute. reflexivity.
  - intros o value [= <-]. discriminate.
Defined.

Lemma build_commands_not_overridden_witness :
  exists githubActionFile swaYaml withBlock,
    parsedDescriptor sampleParse (sampleProject "deploy dotnet") githubActionFile swaYaml /\
    swaBuildConfigWith githubActionFile swaYaml = Ok withBlock /\
    JStr "dotnet publish"
    = orDefault (prop withBlock "app_build_command") (JStr "npm run build --if-present") /\
    JStr "npm run build --if-present"
    = orDefault (prop withBlock "api_build_command") (JStr "npm run build --if-present").
Proof.
  apply (build_commands_not_overridden sample_dotnet (sampleDetect sample_dotnet)
           sampleParse (sampleProject "deploy dotnet") (Some webOverride)
           (infoLines sampleDescriptorPath
              {| appBuildCommand := JStr "dotnet publish";
                 apiBuildCommand := JStr "npm run build --if-present";
                 appLocation := "/proj/web";
                 apiLocation := "/proj/functions";
                 appArtifactLocation := "/proj/web/dist" |})
           {| appBuildCommand := JStr "dotnet publish";
              apiBuildCommand := JStr "npm run build --if-present";
              appLocation := "/proj/web";
              apiLocation := "/proj/functions";
              appArtifactLocation := "/proj/web/dist" |}).
  vm_compute. reflexivity.
Defined.

(** C8, as stated, fails when no descriptor is used: the override record
    comes back with the relative appLocation the caller wrote. *)
Lemma returned_override_path_relative :
  path.isAbsolute (cwd bareProject) = true /\
  readConfigFile sample_dotnet (sampleDetect sample_node) sampleParse
    bareProject (Some clientOverride)
  = ([console_warn warningMessage], Ok (RetOverride (Some clientOverride))) /\
  override_appLocation clientOverride = Some "client" /\
  path.isAbsolute "client" = false /\
  override_apiLocation clientOverride = None.
Proof. repeat split; vm_compute; reflexivity. Qed.

Lemma returned_config_paths_absolute_witness :
  absoluteNormalized "/proj/client" /\
  absoluteNormalized "/proj/server" /\
  absoluteNormalized "/proj/client/".
Proof.
  apply (returned_config_paths_absolute sample_dotnet (sampleDetect sample_node)
           sampleParse (sampleProject "deploy client server") None
           (infoLines sampleDescriptorPath scenarioConfig) scenarioConfig).
  - reflexivity.
  - vm_compute. reflexivity.
Defined.

Lemma checkoutProject_parsed :
  parsedDescriptor sampleParse (sampleProject "checkout only")
    sampleDescriptorPath (sampleWorkflow [checkoutStep]).
Proof.
  exists ["ci.yml"; sampleFile], sampleFile, "checkout only".
  repeat split; vm_compute; reflexivity.
Qed.



(** C7, as stated, fails on a descriptor whose only step is a checkout:
    the message thrown is not "no matching deploy step". *)
Lemma no_deploy_step_message_differs :
  parsedDescriptor sampleParse (sampleProject "checkout only")
    sampleDescriptorPath (sampleWorkflow [checkoutStep]) /\
  Forall (fun step => isDeployStep step = Ok false) [checkoutStep] /\
  snd (readConfigFile sample_dotnet (sampleDetect sample_node) sampleParse
         (sampleProject "checkout only") None)
  <> Thrown (Error "no matching deploy step").
Proof.
  split; [exact checkoutProject_parsed |].
  split; [repeat constructor |].
  vm_compute. discriminate.
Qed.

Lemma no_deploy_step_message_witness :
  readConfigFile sample_dotnet (sampleDetect sample_node) sampleParse
    (sampleProject "checkout only") None
  = ([], Thrown (Error ("invalid property 'jobs.build_and_deploy_job.steps[]'"
                          +:+ " in the SWA workflow file " +:+ JsString.dquote
                          +:+ sampleDescriptorPath +:+ JsString.dquote
                          +:+ ". Make sure it's a valid SWA workflow file."))).
Proof.
  apply (no_deploy_step_message sample_dotnet (sampleDetect sample_node) sampleParse
           (sampleProject "checkout only") None sampleDescriptorPath
           (sampleWorkflow [checkoutStep])
           (JObj {[ "build_and_deploy_job" := JObj {[ "steps" := JArr [checkoutStep] ]} ]})
           (JObj {[ "steps" := JArr [checkoutStep] ]})
           [checkoutStep]).
  - exists ["ci.yml"; sampleFile], sampleFile, "checkout only".
    repeat split; vm_compute; reflexivity.
  - reflexivity.
  - vm_compute. reflexivity.
  - reflexivity.
  - vm_compute. reflexivity.
  - reflexivity.
  - vm_compute. reflexivity.
  - repeat constructor.
Defined.

(** ** Closed forms of [path] on paths without [.] and [..] *)

Module pathClosedForms.
Import path pathFacts.

Lemma segments_append_slash (x y : string) :
  segments (x +:+ String slash y) = (segments x ++ segments y)%list.
Proof.
  induction x as [|c x IH]; [reflexivity |]. rewrite append_cons. cbn [segments].
  rewrite IH. destruct (Ascii.eqb c slash); [reflexivity |].
  pose proof (segments_not_nil x) as Hne.
  destruct (segments x); [congruence | reflexivity].
Qed.

Lemma dotFree_plain (p : string) :
  dotFree p = true -> Forall (fun seg => seg = "" \/ plainName seg) (segments p).
Proof.
  unfold dotFree. intros Hdots. pose proof (segments_noSlash p) as Hslash.
  induction (segments p) as [|seg segs IH]; [constructor |].
  cbn [forallb] in Hdots. apply andb_true_iff in Hdots as [Hseg Hsegs].
  inversion Hslash; subst. constructor; [| now apply IH].
  destruct (String.eqb_spec seg ""); [now left | right].
  apply negb_true_iff, orb_false_iff in Hseg as [Hdot Hdots].
  repeat split; [assumption | now apply String.eqb_neq | now apply String.eqb_neq
                 | assumption].
Qed.

Lemma names_plain (p : string) : dotFree p = true -> Forall plainName (names p).
Proof.
  intros Hp. apply dotFree_plain in Hp. unfold names.
  induction Hp as [|seg segs Hseg _ IH]; [constructor |]. cbn [List.filter].
  destruct (String.eqb_spec seg ""); cbn [negb]; [exact IH |].
  constructor; [| exact IH]. destruct Hseg; [contradiction | assumption].
Qed.

(** Without [.] and [..], [normalizeString] keeps exactly the non-empty
    segments, whether or not it may climb above the root. *)
Lemma fold_pushSegment_dotFree (allowAboveRoot : bool) (segs res : list string) :
  Forall (fun seg => seg = "" \/ plainName seg) segs ->
  fold_left (pushSegment allowAboveRoot) segs res
  = (rev (List.filter (fun seg => negb (String.eqb seg "")) segs) ++ res)%list.
Proof.
  intros Hsegs. revert res.
  induction Hsegs as [|seg segs Hseg _ IH]; intros res; [reflexivity |].
  cbn [fold_left List.filter]. rewrite IH. unfold pushSegment.
  destruct Hseg as [-> | (Hne & Hdot & Hdots & _)]; [reflexivity |].
  destruct (String.eqb_spec seg ""); [contradiction |].
  destruct (String.eqb_spec seg "."); [contradiction |].
  destruct (String.eqb_spec seg ".."); [contradiction |].
  cbn [orb negb rev]. now rewrite <- app_assoc.
Qed.

Lemma normalizeString_dotFree (p : string) (allowAboveRoot : bool) :
  dotFree p = true -> normalizeString p allowAboveRoot = glue (names p).
Proof.
  intros Hp. unfold normalizeString.
  rewrite (fold_pushSegment_dotFree _ _ _ (dotFree_plain p Hp)).
  now rewrite app_nil_r, rev_involutive.
Qed.

Lemma glue_names_empty (segs : list string) :
  Forall plainName segs -> glue segs = "" -> segs = [].
Proof.
  intros Hsegs Hglue. destruct segs as [|seg segs]; [reflexivity |].
  exfalso. revert Hglue. apply glue_names_not_empty; [discriminate | assumption].
Qed.

(** [path.normalize] on an absolute path without [.] and [..]. *)
Lemma normalize_absolute_dotFree (p : string) :
  isAbsolute p = true -> dotFree p = true ->
  normalize p = absPath (names p) (trailingSeparator p).
Proof.
  intros Habs Hp. unfold normalize.
  destruct (String.eqb_spec p "") as [-> | _]; [discriminate |].
  rewrite Habs, (normalizeString_dotFree _ _ Hp). cbn [negb].
  pose proof (names_plain p Hp) as Hplain. unfold absPath.
  destruct (names p) as [|seg segs] eqn:E; [reflexivity |].
  destruct (String.eqb_spec (glue (seg :: segs)) "") as [Hempty | _]; [| reflexivity].
  now apply glue_names_empty in Hempty.
Qed.

Lemma relative_names_not_nil (p : string) :
  p <> "" -> isAbsolute p = false -> names p <> [].
Proof.
  destruct p as [|c p]; [congruence |]. intros _ Hrel. unfold names.
  cbn [segments isAbsolute] in *. rewrite Hrel.
  pose proof (segments_not_nil p) as Hne.
  destruct (segments p); [congruence |]. cbn. discriminate.
Qed.

(** [path.normalize] on a relative path without [.] and [..]. *)
Lemma normalize_relative_dotFree (p : string) :
  p <> "" -> isAbsolute p = false -> dotFree p = true ->
  normalize p = glue (names p) +:+ (if trailingSeparator p then "/" else "").
Proof.
  intros Hne Hrel Hp. unfold normalize.
  destruct (String.eqb_spec p ""); [contradiction |].
  rewrite Hrel, (normalizeString_dotFree _ _ Hp). cbn [negb].
  destruct (String.eqb_spec (glue (names p)) "") as [Hempty | _]; [| reflexivity].
  apply glue_names_empty in Hempty; [| now apply names_plain].
  now apply relative_names_not_nil in Hempty.
Qed.

Lemma dotFree_append_slash (x y : string) :
  dotFree (x +:+ String slash y) = dotFree x && dotFree y.
Proof. unfold dotFree. now rewrite segments_append_slash, forallb_app. Qed.

Lemma names_append_slash (x y : string) :
  names (x +:+ String slash y) = (names x ++ names y)%list.
Proof. unfold names. now rewrite segments_append_slash, List.filter_app. Qed.

Lemma trailingSeparator_append_slash (x y : string) :
  y <> "" -> trailingSeparator (x +:+ String slash y) = trailingSeparator y.
Proof.
  intros Hy. change (String slash y) with ("/" +:+ y).
  rewrite <- append_assoc. now apply trailingSeparator_append.
Qed.

Lemma isAbsolute_append (x y : string) :
  isAbsolute x = true -> isAbsolute (x +:+ y) = true.
Proof. destruct x; [discriminate | exact id]. Qed.

(** [path.join] of an absolute path and one more non-empty path. *)
Lemma join_two (base p : string) :
  isAbsolute base = true -> dotFree base = true -> p <> "" -> dotFree p = true ->
  join [base; p] = absPath (names base ++ names p) (trailingSeparator p).
Proof.
  intros Habs Hbase Hp Hdots. unfold join. cbn [List.filter].
  destruct (String.eqb_spec base "") as [-> | _]; [discriminate |].
  destruct (String.eqb_spec p ""); [contradiction |]. cbn [negb glue].
  change (base +:+ "/" +:+ p) with (base +:+ String slash p).
  rewrite normalize_absolute_dotFree.
  - now rewrite names_append_slash, trailingSeparator_append_slash.
  - now apply isAbsolute_append.
  - rewrite dotFree_append_slash, Hbase, Hdots. reflexivity.
Qed.

(** Line 193 and its likes: [path.normalize(path.join(cwd, p))]. *)
Lemma normalize_join_two (base p : string) :
  isAbsolute base = true -> dotFree base = true -> p <> "" -> dotFree p = true ->
  normalize (join [base; p]) = absPath (names base ++ names p) (trailingSeparator p).
Proof.
  intros Habs Hbase Hp Hdots.
  destruct (join_absolute base [p] Habs) as [_ Hnorm].
  rewrite Hnorm. now apply join_two.
Qed.

Lemma segments_absPath (segs : list string) (trailing : bool) :
  Forall plainName segs ->
  isAbsolute (absPath segs trailing) = true /\
  dotFree (absPath segs trailing) = true /\
  names (absPath segs trailing) = segs.
Proof.
  intros Hsegs. destruct segs as [|seg segs]; [repeat split |].
  unfold absPath. set (l := seg :: segs) in *.
  assert (Hl : l <> []) by discriminate.
  split; [reflexivity |].
  assert (Hsegments : segments ("/" +:+ glue l +:+ (if trailing then "/" else ""))
                      = ("" :: l ++ (if trailing then [""] else []))%list).
  { change ("/" +:+ glue l +:+ (if trailing then "/" else ""))
      with (String slash (glue l +:+ (if trailing then "/" else ""))).
    cbn [segments]. rewrite Ascii.eqb_refl. f_equal. destruct trailing.
    - rewrite segments_trailing, segments_glue; [reflexivity | assumption |].
      now apply plainName_noSlash.
    - rewrite append_empty_r, app_nil_r.
      apply segments_glue; [assumption | now apply plainName_noSlash]. }
  assert (Hfilter : List.filter (fun s => negb (String.eqb s "")) l = l).
  { clear Hl Hsegments. induction Hsegs as [|s ss (Hs & _) _ IH]; [reflexivity |].
    cbn [List.filter]. destruct (String.eqb_spec s ""); [contradiction |].
    cbn [negb]. now rewrite IH. }
  assert (Hdots : forallb (fun s => negb (String.eqb s "." || String.eqb s "..")) l = true).
  { clear Hl Hsegments Hfilter.
    induction Hsegs as [|s ss (_ & Hdot & Hdots & _) _ IH]; [reflexivity |].
    cbn [forallb]. rewrite IH, andb_true_r.
    destruct (String.eqb_spec s "."); [contradiction |].
    destruct (String.eqb_spec s ".."); [contradiction | reflexivity]. }
  split.
  - unfold dotFree. rewrite Hsegments. cbn [forallb]. rewrite forallb_app, Hdots.
    destruct trailing; reflexivity.
  - unfold names. rewrite Hsegments. cbn [List.filter String.eqb negb].
    rewrite List.filter_app, Hfilter. destruct trailing; cbn; now rewrite app_nil_r.
Qed.

Lemma segments_names_trailing (segs : list string) (trailing : bool) :
  segs <> [] -> Forall plainName segs ->
  segments (glue segs +:+ (if trailing then "/" else ""))
  = (segs ++ (if trailing then [""] else []))%list /\
  trailingSeparator (glue segs +:+ (if trailing then "/" else "")) = trailing.
Proof.
  intros Hne Hsegs. destruct trailing.
  - split.
    + rewrite segments_trailing, segments_glue; [reflexivity | assumption |].
      now apply plainName_noSlash.
    + now rewrite trailingSeparator_append.
  - rewrite append_empty_r, app_nil_r. split.
    + apply segments_glue; [assumption | now apply plainName_noSlash].
    + now apply trailingSeparator_glue.
Qed.

Lemma filter_names (segs : list string) :
  Forall plainName segs ->
  List.filter (fun seg => negb (String.eqb seg "")) segs = segs.
Proof.
  induction 1 as [|seg segs (Hseg & _) _ IH]; [reflexivity |].
  cbn [List.filter]. destruct (String.eqb_spec seg ""); [contradiction |].
  cbn [negb]. now rewrite IH.
Qed.

Lemma forallb_names (segs : list string) :
  Forall plainName segs ->
  forallb (fun seg => negb (String.eqb seg "." || String.eqb seg "..")) segs = true.
Proof.
  induction 1 as [|seg segs (_ & Hdot & Hdots & _) _ IH]; [reflexivity |].
  cbn [forallb]. rewrite IH, andb_true_r.
  destruct (String.eqb_spec seg "."); [contradiction |].
  destruct (String.eqb_spec seg ".."); [contradiction | reflexivity].
Qed.

(** Only separators: such a path ends with one. *)
Lemma no_names_trailing (p : string) :
  p <> "" -> names p = [] -> trailingSeparator p = true.
Proof.
  induction p as [|c p IH]; [congruence |]. intros _. unfold names. cbn [segments].
  destruct (Ascii.eqb_spec c slash) as [-> | Hc].
  - cbn [List.filter String.eqb negb]. intros Hnames.
    destruct p as [|c' p]; [reflexivity |].
    change (trailingSeparator (String slash (String c' p)))
      with (trailingSeparator (String c' p)).
    apply IH; [discriminate | exact Hnames].
  - pose proof (segments_not_nil p) as Hne.
    destruct (segments p); [congruence |]. cbn. discriminate.
Qed.

(** What [path.normalize] keeps of a path without [.] and [..]: its
    names and its trailing separator. *)
Lemma normalize_dotFree (p : string) :
  p <> "" -> dotFree p = true ->
  normalize p <> "" /\ dotFree (normalize p) = true /\
  names (normalize p) = names p /\
  trailingSeparator (normalize p) = trailingSeparator p.
Proof.
  intros Hne Hp. pose proof (names_plain p Hp) as Hplain.
  destruct (isAbsolute p) eqn:Habs.
  - rewrite (normalize_absolute_dotFree p Habs Hp).
    destruct (segments_absPath (names p) (trailingSeparator p) Hplain)
      as (_ & Hdots & Hnames).
    repeat split; try assumption.
    + unfold absPath. destruct (names p); discriminate.
    + unfold absPath. destruct (names p) as [|seg segs] eqn:E.
      * symmetry. now apply no_names_trailing.
      * change ("/" +:+ glue (seg :: segs) +:+ (if trailingSeparator p then "/" else ""))
          with ("/" +:+ (glue (seg :: segs) +:+ (if trailingSeparator p then "/" else ""))).
        assert (Hglue : glue (seg :: segs) <> "")
          by (apply glue_names_not_empty; [discriminate | assumption]).
        rewrite trailingSeparator_append.
        -- now apply segments_names_trailing.
        -- destruct (glue (seg :: segs)); [congruence | discriminate].
  - rewrite (normalize_relative_dotFree p Hne Habs Hp).
    pose proof (relative_names_not_nil p Hne Habs) as Hnames.
    destruct (segments_names_trailing (names p) (trailingSeparator p) Hnames Hplain)
      as (Hsegments & Htrailing).
    assert (Hglue : glue (names p) <> "") by now apply glue_names_not_empty.
    repeat split.
    + destruct (glue (names p)); [congruence | discriminate].
    + unfold dotFree. rewrite Hsegments, forallb_app, (forallb_names _ Hplain).
      destruct (trailingSeparator p); reflexivity.
    + unfold names at 1. rewrite Hsegments, List.filter_app, (filter_names _ Hplain).
      destruct (trailingSeparator p); cbn; now rewrite app_nil_r.
    + exact Htrailing.
Qed.

Lemma glue_cons (seg : string) (segs : list string) :
  segs <> [] -> glue (seg :: segs) = seg +:+ String slash (glue segs).
Proof. destruct segs; [congruence | reflexivity]. Qed.

(** A run of plain names before a last path. *)
Lemma glue_names_then (mid : list string) (p : string) :
  Forall plainName mid -> p <> "" ->
  glue (mid ++ [p]) <> "" /\
  dotFree (glue (mid ++ [p])) = dotFree p /\
  names (glue (mid ++ [p])) = (mid ++ names p)%list /\
  trailingSeparator (glue (mid ++ [p])) = trailingSeparator p.
Proof.
  intros Hmid Hp. induction Hmid as [|seg mid Hseg _ IH]; [now repeat split |].
  destruct IH as (Hne & Hdots & Hnames & Htrailing).
  change ((seg :: mid) ++ [p])%list with (seg :: (mid ++ [p]))%list.
  rewrite glue_cons by (destruct mid; discriminate).
  assert (Hsingle : segments seg = [seg]) by (apply segments_single, Hseg).
  destruct Hseg as (Hseg & Hdot & Hdots' & _).
  repeat split.
  - destruct seg; [congruence | discriminate].
  - rewrite dotFree_append_slash, Hdots. unfold dotFree at 1. rewrite Hsingle.
    cbn [forallb]. destruct (String.eqb_spec seg "."); [contradiction |].
    destruct (String.eqb_spec seg ".."); [contradiction | reflexivity].
  - rewrite names_append_slash, Hnames. unfold names at 1. rewrite Hsingle.
    cbn [List.filter]. destruct (String.eqb_spec seg ""); [contradiction | reflexivity].
  - now rewrite trailingSeparator_append_slash.
Qed.

(** [path.join] of an absolute path, plain names and one more path. *)
Lemma join_through (base : string) (mid : list string) (p : string) :
  isAbsolute base = true -> dotFree base = true ->
  Forall plainName mid -> p <> "" -> dotFree p = true ->
  join (base :: mid ++ [p])
  = absPath (names base ++ mid ++ names p) (trailingSeparator p).
Proof.
  intros Habs Hbase Hmid Hp Hdots.
  destruct (glue_names_then mid p Hmid Hp) as (Hne & Hdots' & Hnames & Htrailing).
  rewrite <- Hnames, <- Htrailing, <- join_two; try assumption; [| congruence].
  unfold join. cbn [List.filter].
  destruct (String.eqb_spec base "") as [-> | _]; [discriminate |].
  destruct (String.eqb_spec (glue (mid ++ [p])) ""); [contradiction |].
  cbn [negb]. rewrite List.filter_app, (filter_names _ Hmid). cbn [List.filter].
  destruct (String.eqb_spec p ""); [contradiction |]. cbn [negb].
  rewrite glue_cons by (destruct mid; discriminate). reflexivity.
Qed.

End pathClosedForms.

(** ** More facts about readConfigFile *)

Section ResolverExtras.

Context {RuntimeType : Type} `{EqDecision RuntimeType}.
Variable dotnet : RuntimeType.
Variable detectRuntime : string -> RuntimeType.
Variable YAML_parse : string -> Exc JsVal.

Notation readConfigFile := (readConfigFile dotnet detectRuntime YAML_parse).
Notation fromDescriptor := (fromDescriptor dotnet detectRuntime).
Notation configFrom := (configFrom dotnet detectRuntime).
Notation resolveLocations := (resolveLocations dotnet detectRuntime).
Notation parsedDescriptor := (parsedDescriptor YAML_parse).

Ltac run := cbn [bind exc_bind lift ret say throw app negb orb andb].

(** The run of lines 136-235 once a workflow file is selected. *)
Lemma readConfigFile_selected (w : Process) (overrideConfig : option PartialConfig)
    (githubActionFile : string) :
  selectedDescriptor w githubActionFile ->
  readConfigFile w overrideConfig
  = (githubActionContent <- lift (readFileSync w githubActionFile) ;;
     swaYaml <- lift (YAML_parse githubActionContent) ;;
     fromDescriptor (cwd w) overrideConfig githubActionFile swaYaml).
Proof.
  intros (listing & file & Hdir & Hlast & Hfree & ->).
  unfold readConfigFile, existsSync, readdirSync.
  rewrite Hdir. run. rewrite Hlast.
  rewrite (isSwaWorkflowFile_not_empty file (last_filter_true _ _ _ Hlast)).
  rewrite Hfree. unfold readFileSync. run.
  destruct (lookupPath w (path.resolve (cwd w) [githubActionFolder w; file])) as [[content | listing'] |]; run; try reflexivity.
  destruct (YAML_parse content) as [swaYaml | e]; run; try reflexivity.
  destruct (fromDescriptor _ _ _ _) as [out r]. reflexivity.
Qed.

(** What lines 144-235 leave on the console. *)
Lemma fromDescriptor_console (cwd : string) (overrideConfig : option PartialConfig)
    (githubActionFile : string) (swaYaml : JsVal) :
  match fromDescriptor cwd overrideConfig githubActionFile swaYaml with
  | (out, Thrown _) => out = []
  | (out, Ok (RetOverride _)) => False
  | (out, Ok (RetConfig config)) => out = infoLines githubActionFile config
  end.
Proof.
  unfold fromDescriptor.
  destruct (swaBuildConfigWith githubActionFile swaYaml) as [withBlock | e]; run;
    [| reflexivity].
  destruct (destructure withBlock) as [c | e]; run; [| reflexivity].
  unfold configFrom.
  destruct (resolveLocations cwd c) as [l | e]; run; reflexivity.
Qed.

(** X1. The console tells how readConfigFile completed: nothing is
    written when it throws; the one warning is written when it hands
    back the overrideConfig argument, which is then returned as passed;
    the two info lines, naming the descriptor and showing the returned
    configuration, are written when it returns a configuration. *)
Theorem console_tells_completion (w : Process) (overrideConfig : option PartialConfig) :
  match readConfigFile w overrideConfig with
  | (out, Thrown _) => out = []
  | (out, Ok (RetOverride o)) =>
      o = overrideConfig /\ out = [console_warn warningMessage]
  | (out, Ok (RetConfig config)) =>
      exists githubActionFile swaYaml,
        parsedDescriptor w githubActionFile swaYaml /\
        out = infoLines githubActionFile config
  end.
Proof.
  destruct (readConfigFile w overrideConfig) as [out [[o | config] | e]] eqn:Hrun.
  - revert Hrun. unfold readConfigFile, existsSync, readdirSync, readFileSync.
    destruct (lookupPath w (githubActionFolder w)) as [[content | listing] |];
      run; try (now intros [= <- <-]); try discriminate.
    destruct (last (List.filter isSwaWorkflowFile listing)) as [file |];
      run; try (now intros [= <- <-]).
    destruct (String.eqb file "" || _); run; try (now intros [= <- <-]).
    destruct (lookupPath w (path.resolve (cwd w) [githubActionFolder w; file])) as [[content | listing'] |]; run; try discriminate.
    destruct (YAML_parse content) as [swaYaml | e]; run; try discriminate.
    pose proof (fromDescriptor_console (cwd w) overrideConfig
                  (path.resolve (cwd w) [githubActionFolder w; file]) swaYaml) as Hc.
    destruct (fromDescriptor _ _ _ _) as [out' [[o' | config'] | e']];
      [contradiction | discriminate | discriminate].
  - destruct (readConfigFile_config _ _ _ _ _ _ _ Hrun)
      as (file & swaYaml & Hparsed & Hfrom).
    exists file, swaYaml. split; [exact Hparsed |].
    pose proof (fromDescriptor_console (cwd w) overrideConfig file swaYaml) as Hc.
    rewrite Hfrom in Hc. exact Hc.
  - revert Hrun. unfold readConfigFile, existsSync, readdirSync, readFileSync.
    destruct (lookupPath w (githubActionFolder w)) as [[content | listing] |];
      run; try (now intros [= <- <-]); try discriminate.
    destruct (last (List.filter isSwaWorkflowFile listing)) as [file |];
      run; try discriminate.
    destruct (String.eqb file "" || _); run; try discriminate.
    destruct (lookupPath w (path.resolve (cwd w) [githubActionFolder w; file])) as [[content | listing'] |]; run;
      try (now intros [= <- <-]).
    destruct (YAML_parse content) as [swaYaml | e']; run; try (now intros [= <- <-]).
    pose proof (fromDescriptor_console (cwd w) overrideConfig
                  (path.resolve (cwd w) [githubActionFolder w; file]) swaYaml) as Hc.
    destruct (fromDescriptor _ _ _ _) as [out' [[o' | config'] | e'']];
      [contradiction | discriminate |]. now intros [= <- <-].
Qed.

(** X2. readConfigFile hands back the override exactly when the folder
    .github/workflows is not there, or is a directory in which no entry
    matches the pattern, or in which the last matching entry has a name
    that is also found from the working directory. *)
Theorem override_returned_exactly_when (w : Process)
    (overrideConfig : option PartialConfig) :
  (exists out o, readConfigFile w overrideConfig = (out, Ok (RetOverride o))) <->
  lookupPath w (githubActionFolder w) = None \/
  (exists listing,
      lookupPath w (githubActionFolder w) = Some (Dir listing) /\
      (List.filter isSwaWorkflowFile listing = [] \/
       exists file,
         last (List.filter isSwaWorkflowFile listing) = Some file /\
         lookupPath w file <> None)).
Proof.
  unfold readConfigFile, existsSync, readdirSync, readFileSync.
  destruct (lookupPath w (githubActionFolder w)) as [[content | listing] |] eqn:Hdir;
    run.
  - split; [intros (out & o & [=]) | intros [[=] | (l & [=] & _)]].
  - destruct (last (List.filter isSwaWorkflowFile listing)) as [file |] eqn:Hlast; run.
    + rewrite (isSwaWorkflowFile_not_empty file (last_filter_true _ _ _ Hlast)). run.
      destruct (lookupPath w file) as [entry |] eqn:Hfile; run.
      * split; [intros _ | intros _; eauto].
        right. exists listing. split; [reflexivity |]. right. exists file.
        split; [exact Hlast | congruence].
      * split.
        -- intros (out & o & Hrun). exfalso. revert Hrun.
           destruct (lookupPath w (path.resolve (cwd w) [githubActionFolder w; file])) as [[content | listing'] |]; run; try discriminate.
           destruct (YAML_parse content) as [swaYaml | e]; run; try discriminate.
           pose proof (fromDescriptor_console (cwd w) overrideConfig
                         (path.resolve (cwd w) [githubActionFolder w; file]) swaYaml)
             as Hc.
           destruct (fromDescriptor _ _ _ _) as [out' [[o' | config'] | e']];
             [contradiction | discriminate | discriminate].
        -- intros [[=] | (l & [= <-] & [Hnone | (file' & Hlast' & Hfound)])].
           ++ rewrite Hnone in Hlast. discriminate.
           ++ congruence.
    + split; [intros _ | intros _; eauto].
      right. exists listing. split; [reflexivity |]. left. now apply last_None.
  - split; [intros _; now left | intros _; eauto].
Qed.

(** X3. Errors of the file system are not recovered from.  When
    .github/workflows is a regular file, listing it throws ENOTDIR; when
    the selected workflow file is a directory or is not there, reading it
    throws EISDIR or ENOENT.  Nothing is written to the console and the
    override is not returned. *)
Theorem file_system_errors_propagate (w : Process)
    (overrideConfig : option PartialConfig) :
  (forall content,
     lookupPath w (githubActionFolder w) = Some (File content) ->
     readConfigFile w overrideConfig
     = ([], Thrown (SystemError "ENOTDIR" (githubActionFolder w)))) /\
  (forall githubActionFile,
     selectedDescriptor w githubActionFile ->
     (forall listing,
        lookupPath w githubActionFile = Some (Dir listing) ->
        readConfigFile w overrideConfig
        = ([], Thrown (SystemError "EISDIR" githubActionFile))) /\
     (lookupPath w githubActionFile = None ->
      readConfigFile w overrideConfig
      = ([], Thrown (SystemError "ENOENT" githubActionFile)))).
Proof.
  split.
  - intros content Hfile. unfold readConfigFile, existsSync, readdirSync.
    rewrite Hfile. reflexivity.
  - intros file Hselected. rewrite (readConfigFile_selected _ _ _ Hselected).
    unfold readFileSync. split; [intros listing Hdir | intros Hdir];
      rewrite Hdir; reflexivity.
Qed.

(** X4. A selected workflow file that does not parse stops the
    resolution: an exception of the parser is thrown on as it is, and a
    document that parses to a falsy value (null for an empty file) gives
    the "could not parse" Error naming the file.  Nothing is written to
    the console and the override is not returned. *)
Theorem parse_failures_propagate (w : Process) (overrideConfig : option PartialConfig)
    (githubActionFile githubActionContent : string) :
  selectedDescriptor w githubActionFile ->
  lookupPath w githubActionFile = Some (File githubActionContent) ->
  (forall e,
     YAML_parse githubActionContent = Thrown e ->
     readConfigFile w overrideConfig = ([], Thrown e)) /\
  (forall swaYaml,
     YAML_parse githubActionContent = Ok swaYaml -> truthy swaYaml = false ->
     readConfigFile w overrideConfig
     = ([], Thrown (Error ("could not parse the SWA workflow file "
                             +:+ JsString.dquote +:+ githubActionFile
                             +:+ JsString.dquote
                             +:+ ". Make sure it's a valid YAML file.")))).
Proof.
  intros Hselected Hfile. rewrite (readConfigFile_selected _ _ _ Hselected).
  unfold readFileSync. rewrite Hfile. run. split.
  - intros e ->. reflexivity.
  - intros swaYaml -> Hfalsy. run. unfold fromDescriptor, swaBuildConfigWith.
    cbn [orThrow]. rewrite Hfalsy. reflexivity.
Qed.

(** X5. After the structural checks, a configuration is returned exactly
    when the app location and the app artifact location (after defaults)
    are strings and the api location is falsy or a string; in every
    other case [path] rejects the value and readConfigFile throws a
    TypeError, writing nothing.  The build commands are not looked at. *)
Theorem locations_must_be_strings (w : Process) (overrideConfig : option PartialConfig)
    (githubActionFile : string) (swaYaml withBlock : JsVal) (c : SwaBuildConfig) :
  parsedDescriptor w githubActionFile swaYaml ->
  swaBuildConfigWith githubActionFile swaYaml = Ok withBlock ->
  destructure withBlock = Ok c ->
  if isString (app_location c)
     && (negb (truthy (api_location c)) || isString (api_location c))
     && isString (app_artifact_location c)
  then exists config,
      readConfigFile w overrideConfig
      = (infoLines githubActionFile config, Ok (RetConfig config))
  else exists what,
      readConfigFile w overrideConfig = ([], Thrown (TypeError what)).
Proof.
  intros Hparsed Hwith Hc.
  rewrite (readConfigFile_parsed _ _ _ _ _ _ _ Hparsed).
  rewrite (fromDescriptor_stages _ _ _ _ _ _ _ _ Hwith Hc).
  unfold configFrom, resolveLocations.
  destruct (app_location c) as [| | | app | |];
    cbn [isString andb pathArg exc_bind]; run; try (eexists; reflexivity).
  destruct (truthy (api_location c)) eqn:Htruthy; cbn [negb orb].
  - destruct (api_location c) as [| | | api | |];
      cbn [isString andb pathArg exc_bind]; run; try (eexists; reflexivity).
    destruct (app_artifact_location c) as [| | | artifact | |];
      cbn [isString andb pathArg exc_bind]; run; eexists; reflexivity.
  - cbn [pathArg exc_bind].
    destruct (app_artifact_location c) as [| | | artifact | |];
      cbn [isString andb pathArg exc_bind]; run; eexists; reflexivity.
Qed.

Lemma dotnetPublish_plain : Forall plainName dotnetPublish.
Proof.
  repeat constructor; try discriminate;
    repeat (match goal with |- _ <> _ => discriminate end).
Qed.

(** Lines 193-203 in closed form, for locations without [.] and [..]. *)
Lemma resolveLocations_dotFree (cwd : string) (c : SwaBuildConfig)
    (app api artifact : string) :
  path.isAbsolute cwd = true -> dotFree cwd = true ->
  app_location c = JStr app -> app <> "" -> dotFree app = true ->
  (if truthy (api_location c) then api_location c else JStr path.sep) = JStr api ->
  dotFree api = true ->
  app_artifact_location c = JStr artifact -> artifact <> "" -> dotFree artifact = true ->
  resolveLocations cwd c
  = Ok {| loc_app := absPath (names cwd ++ names app) (path.trailingSeparator app);
          loc_api := absPath (names cwd ++ names api) (path.trailingSeparator api);
          loc_artifact :=
            absPath
              (names cwd ++ names app
                 ++ (if decide (detectRuntime
                                  (absPath (names cwd ++ names app)
                                     (path.trailingSeparator app)) = dotnet)
                     then dotnetPublish else [])
                 ++ names artifact)
              (path.trailingSeparator artifact) |}.
Proof.
  intros Habs Hcwd Happ Happ1 Happ2 Hapi Hapi2 Hartifact Hartifact1 Hartifact2.
  assert (Hapi1 : api <> "").
  { destruct (truthy (api_location c)) eqn:Htruthy.
    - rewrite Hapi in Htruthy. cbn in Htruthy. intros ->. discriminate.
    - injection Hapi as <-. discriminate. }
  unfold resolveLocations. rewrite Happ, Hapi, Hartifact. cbn [pathArg exc_bind].
  rewrite !pathClosedForms.normalize_join_two by assumption.
  set (appRoot := absPath (names cwd ++ names app) (path.trailingSeparator app)).
  assert (Hplain : Forall plainName (names cwd ++ names app)).
  { apply Forall_app. split; now apply pathClosedForms.names_plain. }
  destruct (pathClosedForms.segments_absPath _ (path.trailingSeparator app) Hplain)
    as (Hroot & Hroot1 & Hroot2). fold appRoot in Hroot, Hroot1, Hroot2.
  destruct (pathClosedForms.normalize_dotFree artifact Hartifact1 Hartifact2)
    as (Hn & Hn1 & Hn2 & Hn3).
  do 2 f_equal. destruct (decide (detectRuntime appRoot = dotnet)).
  - change [appRoot; "bin"; "Debug"; "netstandard2.1"; "publish"; path.normalize artifact]
      with (appRoot :: dotnetPublish ++ [path.normalize artifact])%list.
    rewrite pathClosedForms.join_through;
      [| assumption | assumption | apply dotnetPublish_plain | assumption | assumption].
    now rewrite Hroot2, Hn2, Hn3, <- !app_assoc.
  - rewrite pathClosedForms.join_two by assumption.
    now rewrite Hroot2, Hn2, Hn3, <- !app_assoc.
Qed.

(** X6. The resolved locations in closed form.  With an absolute working
    directory and descriptor locations that are non-empty strings
    without [.] and [..] segments, readConfigFile without override
    returns: appLocation, the names of the working directory followed by
    those of app_location; apiLocation, likewise for api_location;
    appArtifactLocation, the names of the app location, then bin, Debug,
    netstandard2.1, publish when the detector answers dotnet for the app
    location, then the names of app_artifact_location.  Each keeps the
    trailing separator of the descriptor's value, and a leading separator
    in a descriptor value changes nothing. *)
Theorem resolved_locations_closed_form (w : Process) (githubActionFile : string)
    (swaYaml withBlock : JsVal) (c : SwaBuildConfig) (app api artifact : string) :
  path.isAbsolute (cwd w) = true -> dotFree (cwd w) = true ->
  parsedDescriptor w githubActionFile swaYaml ->
  swaBuildConfigWith githubActionFile swaYaml = Ok withBlock ->
  destructure withBlock = Ok c ->
  app_location c = JStr app -> app <> "" -> dotFree app = true ->
  api_location c = JStr api -> api <> "" -> dotFree api = true ->
  app_artifact_location c = JStr artifact -> artifact <> "" -> dotFree artifact = true ->
  exists config,
    readConfigFile w None = (infoLines githubActionFile config, Ok (RetConfig config)) /\
    appBuildCommand config = app_build_command c /\
    apiBuildCommand config = api_build_command c /\
    appLocation config
    = absPath (names (cwd w) ++ names app) (path.trailingSeparator app) /\
    apiLocation config
    = absPath (names (cwd w) ++ names api) (path.trailingSeparator api) /\
    appArtifactLocation config
    = absPath
        (names (cwd w) ++ names app
           ++ (if decide (detectRuntime (appLocation config) = dotnet)
               then dotnetPublish else [])
           ++ names artifact)
        (path.trailingSeparator artifact).
Proof.
  intros Habs Hcwd Hparsed Hwith Hc Happ Happ1 Happ2 Hapi Hapi1 Hapi2
    Hartifact Hartifact1 Hartifact2.
  assert (Hapi0 : (if truthy (api_location c) then api_location c else JStr path.sep)
                  = JStr api).
  { rewrite Hapi. cbn. destruct (String.eqb_spec api ""); [contradiction | reflexivity]. }
  pose proof (resolveLocations_dotFree (cwd w) c app api artifact
                Habs Hcwd Happ Happ1 Happ2 Hapi0 Hapi2 Hartifact Hartifact1 Hartifact2)
    as Hl.
  rewrite (readConfigFile_parsed _ _ _ _ _ _ _ Hparsed).
  rewrite (fromDescriptor_stages _ _ _ _ _ _ _ _ Hwith Hc).
  rewrite (configFrom_resolved _ _ _ _ _ _ _ Hl).
  eexists. split; [reflexivity |]. repeat split.
Qed.

(** X7. An api_location that is present but falsy (the empty string,
    null, false, 0) is not replaced by "api": the api location is then
    resolved from the path separator, so that a returned configuration
    whose apiLocation is not overridden has the working directory itself,
    followed by a separator, as apiLocation. *)
Theorem falsy_api_location_is_cwd (w : Process) (overrideConfig : option PartialConfig)
    (githubActionFile : string) (swaYaml withBlock : JsVal) (c : SwaBuildConfig)
    (out : list Log) (config : GithubActionSWAConfig) :
  path.isAbsolute (cwd w) = true -> dotFree (cwd w) = true ->
  parsedDescriptor w githubActionFile swaYaml ->
  swaBuildConfigWith githubActionFile swaYaml = Ok withBlock ->
  destructure withBlock = Ok c ->
  truthy (api_location c) = false ->
  (forall o value, overrideConfig = Some o ->
     override_apiLocation o = Some value -> value = "") ->
  readConfigFile w overrideConfig = (out, Ok (RetConfig config)) ->
  apiLocation config = absPath (names (cwd w)) true.
Proof.
  intros Habs Hcwd Hparsed Hwith Hc Hfalsy Hkeep Hrun.
  rewrite (readConfigFile_parsed _ _ _ _ _ _ _ Hparsed) in Hrun.
  rewrite (fromDescriptor_stages _ _ _ _ _ _ _ _ Hwith Hc) in Hrun.
  unfold configFrom in Hrun.
  destruct (resolveLocations (cwd w) c) as [l | e] eqn:Hl; [| discriminate].
  revert Hrun. run. intros [= _ <-].
  apply resolveLocations_Ok in Hl as (app & api & artifact & _ & Hapi & _ & _ & Hloc & _).
  rewrite Hfalsy in Hapi. injection Hapi as <-.
  rewrite pathClosedForms.normalize_join_two in Hloc
    by first [assumption | reflexivity | unfold path.sep; discriminate].
  change (names path.sep) with (@nil string) in Hloc. rewrite app_nil_r in Hloc.
  change (path.trailingSeparator path.sep) with true in Hloc.
  cbn [configOf apiLocation]. rewrite <- Hloc.
  destruct overrideConfig as [o |]; [| reflexivity].
  cbn [applyOverride loc_api]. unfold overridden.
  destruct (override_apiLocation o) as [value |] eqn:Hvalue; [| reflexivity].
  now rewrite (Hkeep o value eq_refl Hvalue).
Qed.

(** X8. The defaults in closed form.  When the [with] block sets none of
    the three locations, readConfigFile without override returns the
    working directory followed by a separator as appLocation, the
    working directory followed by api as apiLocation, and as
    appArtifactLocation the working directory followed by a separator,
    with bin/Debug/netstandard2.1/publish in between when the detector
    answers dotnet. *)
Theorem default_locations (w : Process) (githubActionFile : string)
    (swaYaml withBlock : JsVal) :
  path.isAbsolute (cwd w) = true -> dotFree (cwd w) = true ->
  parsedDescriptor w githubActionFile swaYaml ->
  swaBuildConfigWith githubActionFile swaYaml = Ok withBlock ->
  prop withBlock "app_location" = None ->
  prop withBlock "api_location" = None ->
  prop withBlock "app_artifact_location" = None ->
  exists config,
    readConfigFile w None = (infoLines githubActionFile config, Ok (RetConfig config)) /\
    appLocation config = absPath (names (cwd w)) true /\
    apiLocation config = absPath (names (cwd w) ++ ["api"]) false /\
    appArtifactLocation config
    = absPath
        (names (cwd w)
           ++ (if decide (detectRuntime (appLocation config) = dotnet)
               then dotnetPublish else []))
        true.
Proof.
  intros Habs Hcwd Hparsed Hwith Happ Hapi Hartifact.
  pose proof (destructure_truthy _ (swaBuildConfigWith_truthy _ _ _ Hwith)) as Hc.
  rewrite Happ, Hapi, Hartifact in Hc. cbn [orDefault] in Hc.
  set (c := {| app_build_command := _ |}) in Hc.
  assert (Hl := resolveLocations_dotFree (cwd w) c path.sep "api" path.sep Habs Hcwd
                  eq_refl ltac:(discriminate) eq_refl eq_refl eq_refl
                  eq_refl ltac:(discriminate) eq_refl).
  change (names path.sep) with (@nil string) in Hl.
  change (names "api") with ["api"] in Hl.
  change (path.trailingSeparator path.sep) with true in Hl.
  change (path.trailingSeparator "api") with false in Hl.
  rewrite !app_nil_r in Hl.
  rewrite (readConfigFile_parsed _ _ _ _ _ _ _ Hparsed).
  rewrite (fromDescriptor_stages _ _ _ _ _ _ _ _ Hwith Hc).
  rewrite (configFrom_resolved _ _ _ _ _ _ _ Hl).
  eexists. split; [reflexivity |]. repeat split.
Qed.

(** X9. An override in closed form.  In a returned configuration, a
    location whose override is a non-empty string without [.] and [..]
    segments is made of the names of the working directory followed by
    those of the override value, with the value's trailing separator: an
    override that starts with a separator is placed under the working
    directory like a relative one. *)
Theorem override_is_placed_under_cwd (w : Process) (o : PartialConfig)
    (out : list Log) (config : GithubActionSWAConfig) :
  path.isAbsolute (cwd w) = true -> dotFree (cwd w) = true ->
  readConfigFile w (Some o) = (out, Ok (RetConfig config)) ->
  (forall value, override_appLocation o = Some value ->
     value <> "" -> dotFree value = true ->
     appLocation config
     = absPath (names (cwd w) ++ names value) (path.trailingSeparator value)) /\
  (forall value, override_apiLocation o = Some value ->
     value <> "" -> dotFree value = true ->
     apiLocation config
     = absPath (names (cwd w) ++ names value) (path.trailingSeparator value)) /\
  (forall value, override_appArtifactLocation o = Some value ->
     value <> "" -> dotFree value = true ->
     appArtifactLocation config
     = absPath (names (cwd w) ++ names value) (path.trailingSeparator value)) /\
  (forall value, names ("/" +:+ value) = names value).
Proof.
  intros Habs Hcwd Hrun.
  apply readConfigFile_config in Hrun as (file & swaYaml & _ & Hrun).
  apply fromDescriptor_config in Hrun as (withBlock & c & l & _ & _ & _ & -> & _).
  cbn [configOf applyOverride appLocation apiLocation appArtifactLocation
         loc_app loc_api loc_artifact].
  repeat split; try (intros value -> Hvalue Hdots; unfold overridden;
    destruct (String.eqb_spec value ""); [contradiction |]; cbn [negb];
    now apply pathClosedForms.normalize_join_two).
Qed.

(** X10. The three location fields are overridden independently.  When
    readConfigFile returns a configuration object with one override
    record, it returns one with any other override record too, and a
    location field is the same in both results as soon as the two records
    agree on that field.  So an override of appLocation alone leaves the
    artifact location where the descriptor's app location and the
    runtime detected there put it: detection is not run again. *)
Theorem override_fields_independent (w : Process) (o1 o2 : PartialConfig)
    (out1 : list Log) (c1 : GithubActionSWAConfig) :
  readConfigFile w (Some o1) = (out1, Ok (RetConfig c1)) ->
  exists out2 c2,
    readConfigFile w (Some o2) = (out2, Ok (RetConfig c2)) /\
    (override_appLocation o1 = override_appLocation o2 ->
     appLocation c1 = appLocation c2) /\
    (override_apiLocation o1 = override_apiLocation o2 ->
     apiLocation c1 = apiLocation c2) /\
    (override_appArtifactLocation o1 = override_appArtifactLocation o2 ->
     appArtifactLocation c1 = appArtifactLocation c2).
Proof.
  intros Hrun.
  apply readConfigFile_config in Hrun as (file & swaYaml & Hparsed & Hrun).
  apply fromDescriptor_config in Hrun as (withBlock & c & l & Hwith & Hc & Hl & -> & _).
  rewrite (readConfigFile_parsed _ _ _ _ _ _ _ Hparsed).
  rewrite (fromDescriptor_stages _ _ _ _ _ _ _ _ Hwith Hc).
  rewrite (configFrom_resolved _ _ _ _ _ _ _ Hl).
  eexists. eexists. split; [reflexivity |].
  cbn. repeat split; intros ->; reflexivity.
Qed.

(** X11. An override record that sets no location, or only empty ones,
    changes nothing, whatever build commands it carries: on a parsed
    descriptor the run is the one without override, console and
    exceptions included. *)
Theorem empty_override_changes_nothing (w : Process) (o : PartialConfig)
    (githubActionFile : string) (swaYaml : JsVal) :
  parsedDescriptor w githubActionFile swaYaml ->
  (forall value, override_appLocation o = Some value -> value = "") ->
  (forall value, override_apiLocation o = Some value -> value = "") ->
  (forall value, override_appArtifactLocation o = Some value -> value = "") ->
  readConfigFile w (Some o) = readConfigFile w None.
Proof.
  intros Hparsed Happ Hapi Hartifact.
  rewrite !(readConfigFile_parsed _ _ _ _ _ _ _ Hparsed).
  unfold fromDescriptor, configFrom.
  destruct (swaBuildConfigWith githubActionFile swaYaml) as [withBlock | e]; run;
    [| reflexivity].
  destruct (destructure withBlock) as [c | e]; run; [| reflexivity].
  destruct (resolveLocations (cwd w) c) as [[app api artifact] | e]; run;
    [| reflexivity].
  assert (Hsame : forall field current,
             (forall value, field = Some value -> value = "") ->
             overridden (cwd w) field current = current).
  { intros [value |] current Hfield; [| reflexivity].
    unfold overridden. now rewrite (Hfield value eq_refl). }
  cbn [applyOverride loc_app loc_api loc_artifact].
  now rewrite !Hsame.
Qed.

Lemma find_first (before after : list JsVal) (step : JsVal) :
  Forall (fun s => isDeployStep s = Ok false) before ->
  find (before ++ step :: after)
  = (found <-? isDeployStep step ;; if (found : bool) then Ok (Some step) else find after).
Proof.
  induction 1 as [| s before Hs _ IH]; [reflexivity |].
  cbn [app find]. rewrite Hs. exact IH.
Qed.

(** Lines 144-163 on a document that has the three nested properties. *)
Lemma swaBuildConfigWith_steps (githubActionFile : string)
    (swaYaml jobs job steps : JsVal) :
  truthy swaYaml = true ->
  prop swaYaml "jobs" = Some jobs -> truthy jobs = true ->
  prop jobs "build_and_deploy_job" = Some job -> truthy job = true ->
  prop job "steps" = Some steps -> truthy steps = true ->
  swaBuildConfigWith githubActionFile swaYaml
  = (swaBuildConfig <-? callFind steps ;;
     swaBuildConfig <-? orThrow swaBuildConfig
       (Error (invalidProperty "jobs.build_and_deploy_job.steps[]" githubActionFile)) ;;
     withBlock <-? getProp swaBuildConfig "with" ;;
     orThrow withBlock
       (Error (missingProperty "jobs.build_and_deploy_job.steps[].with"
                 githubActionFile))).
Proof.
  intros Hdoc Hjobs Hjobs1 Hjob Hjob1 Hsteps Hsteps1.
  unfold swaBuildConfigWith. cbn [orThrow]. rewrite Hdoc. cbn [exc_bind].
  rewrite (getProp_truthy _ _ Hdoc), Hjobs. cbn [exc_bind orThrow].
  rewrite Hjobs1. cbn [exc_bind].
  rewrite (getProp_truthy _ _ Hjobs1), Hjob. cbn [exc_bind orThrow].
  rewrite Hjob1. cbn [exc_bind].
  rewrite (getProp_truthy _ _ Hjob1), Hsteps. cbn [exc_bind orThrow].
  rewrite Hsteps1. reflexivity.
Qed.

(** X12. The first deploy step wins.  When the steps are a sequence in
    which some step passes the test of line 165 and no earlier step does,
    the [with] block of that step is the one destructured and resolved,
    whatever steps follow it: later deploy steps, and later entries on
    which the test would throw, are never looked at. *)
Theorem first_deploy_step_wins (w : Process) (overrideConfig : option PartialConfig)
    (githubActionFile : string) (swaYaml jobs job : JsVal)
    (before after : list JsVal) (step withBlock : JsVal) :
  parsedDescriptor w githubActionFile swaYaml ->
  truthy swaYaml = true ->
  prop swaYaml "jobs" = Some jobs -> truthy jobs = true ->
  prop jobs "build_and_deploy_job" = Some job -> truthy job = true ->
  prop job "steps" = Some (JArr (before ++ step :: after)) ->
  Forall (fun s => isDeployStep s = Ok false) before ->
  isDeployStep step = Ok true ->
  prop step "with" = Some withBlock -> truthy withBlock = true ->
  exists c,
    destructure withBlock = Ok c /\
    readConfigFile w overrideConfig
    = configFrom (cwd w) overrideConfig githubActionFile c.
Proof.
  intros Hparsed Hdoc Hjobs Hjobs1 Hjob Hjob1 Hsteps Hbefore Hstep Hwith Hwith1.
  assert (Hblock : swaBuildConfigWith githubActionFile swaYaml = Ok withBlock).
  { rewrite (swaBuildConfigWith_steps _ _ _ _ _ Hdoc Hjobs Hjobs1 Hjob Hjob1 Hsteps eq_refl).
    cbn [callFind]. rewrite (find_first _ _ _ Hbefore), Hstep. cbn [exc_bind orThrow].
    destruct (isDeployStep_mapping _ Hstep) as [Htruthy _]. rewrite Htruthy.
    cbn [exc_bind]. rewrite (getProp_truthy _ _ Htruthy), Hwith. cbn [exc_bind orThrow].
    now rewrite Hwith1. }
  pose proof (destructure_truthy _ Hwith1) as Hc.
  eexists. split; [exact Hc |].
  rewrite (readConfigFile_parsed _ _ _ _ _ _ _ Hparsed).
  apply (fromDescriptor_stages _ _ _ _ _ _ _ _ Hblock Hc).
Qed.

(** When the test of line 165 throws: on a null step, and on a step
    whose [uses] is truthy but neither a string nor a sequence. *)
Lemma isDeployStep_throws (step : JsVal) :
  step = JNull \/
  (exists uses,
      prop step "uses" = Some uses /\ truthy uses = true /\
      isString uses = false /\ (forall items, uses <> JArr items)) ->
  exists what, isDeployStep step = Thrown (TypeError what).
Proof.
  intros [-> | (uses & Huses & Htruthy & Hstring & Harray)]; [eexists; reflexivity |].
  unfold isDeployStep. rewrite getProp_truthy.
  - rewrite Huses. cbn [exc_bind]. rewrite Htruthy.
    destruct uses; try discriminate; try (eexists; reflexivity).
    now destruct (Harray items).
  - destruct step; try discriminate; reflexivity.
Qed.

(** X13. A malformed step before the deploy step stops the resolution.
    When a null entry, or a step whose [uses] is truthy but neither a
    string nor a sequence, comes in the steps before any step passing the
    test of line 165, readConfigFile throws a TypeError and writes
    nothing, even if a well-formed deploy step follows. *)
Theorem malformed_step_throws (w : Process) (overrideConfig : option PartialConfig)
    (githubActionFile : string) (swaYaml jobs job : JsVal)
    (before after : list JsVal) (step : JsVal) :
  parsedDescriptor w githubActionFile swaYaml ->
  truthy swaYaml = true ->
  prop swaYaml "jobs" = Some jobs -> truthy jobs = true ->
  prop jobs "build_and_deploy_job" = Some job -> truthy job = true ->
  prop job "steps" = Some (JArr (before ++ step :: after)) ->
  Forall (fun s => isDeployStep s = Ok false) before ->
  step = JNull \/
  (exists uses,
      prop step "uses" = Some uses /\ truthy uses = true /\
      isString uses = false /\ (forall items, uses <> JArr items)) ->
  exists what, readConfigFile w overrideConfig = ([], Thrown (TypeError what)).
Proof.
  intros Hparsed Hdoc Hjobs Hjobs1 Hjob Hjob1 Hsteps Hbefore Hstep.
  destruct (isDeployStep_throws step Hstep) as [what Hthrows]. exists what.
  rewrite (readConfigFile_parsed _ _ _ _ _ _ _ Hparsed). unfold fromDescriptor.
  rewrite (swaBuildConfigWith_steps _ _ _ _ _ Hdoc Hjobs Hjobs1 Hjob Hjob1 Hsteps eq_refl).
  cbn [callFind]. rewrite (find_first _ _ _ Hbefore), Hthrows. reflexivity.
Qed.

Lemma last_filter_app {A} (f : A -> bool) (before after : list A) (x : A) :
  f x = true -> Forall (fun y => f y = false) after ->
  last (List.filter f (before ++ x :: after)) = Some x.
Proof.
  intros Hx Hafter. rewrite List.filter_app. cbn [List.filter]. rewrite Hx.
  replace (List.filter f after) with (@nil A).
  - change (x :: []) with [x]. apply last_snoc.
  - symmetry. induction Hafter as [| y after Hy _ IH]; [reflexivity |].
    cbn [List.filter]. now rewrite Hy.
Qed.

(** X14. Of several matching workflow files the last listed is the one
    read.  When an entry of .github/workflows matches the pattern and no
    later entry does, readConfigFile reads and parses that file and runs
    on its document; matching entries listed before it are not read. *)
Theorem last_matching_file_is_read (w : Process) (overrideConfig : option PartialConfig)
    (before after : list string) (file githubActionContent : string)
    (swaYaml : JsVal) :
  lookupPath w (githubActionFolder w) = Some (Dir (before ++ file :: after)) ->
  isSwaWorkflowFile file = true ->
  Forall (fun later => isSwaWorkflowFile later = false) after ->
  lookupPath w file = None ->
  lookupPath w (path.resolve (cwd w) [githubActionFolder w; file])
  = Some (File githubActionContent) ->
  YAML_parse githubActionContent = Ok swaYaml ->
  readConfigFile w overrideConfig
  = fromDescriptor (cwd w) overrideConfig
      (path.resolve (cwd w) [githubActionFolder w; file]) swaYaml.
Proof.
  intros Hdir Hfile Hafter Hfree Hcontent Hparse.
  apply readConfigFile_parsed.
  exists (before ++ file :: after)%list, file, githubActionContent.
  repeat split; try assumption. now apply last_filter_app.
Qed.

End ResolverExtras.

(** ** Facts about response and validateCookie *)

(** [codeUnits] on a plain string, on e with an acute accent (U+00E9,
    bytes C3 A9: one code unit) and on the grinning face (U+1F600, bytes
    F0 9F 98 80: the surrogates D83D and DE00). *)
Lemma codeUnits_doc :
  codeUnits "abc" = ["a"; "b"; "c"] /\
  codeUnits (byteString 195 +:+ byteString 169)
  = [byteString 195 +:+ byteString 169] /\
  codeUnits (byteString 240 +:+ byteString 159 +:+ byteString 152 +:+ byteString 128)
  = [unitBytes 55357; unitBytes 56832] /\
  dom (spread (Some (JStr (byteString 195 +:+ byteString 169)))) = ({[ "0" ]} : gset string).
Proof. repeat split; vm_compute; reflexivity. Qed.

Section ResponseFacts.

Variable debugText : string.

Notation response := (response debugText).

Lemma response_Ok (env : ProcessEnv) (o : ResponseOptions) (res : Response) :
  response env o = Ok res ->
  exists context bindingData status,
    opt_context o = Some context /\ truthy context = true /\
    prop context "bindingData" = Some bindingData /\ truthy bindingData = true /\
    opt_status o = Some (JNum status) /\
    res_status res = JNum status /\
    res_cookies res = opt_cookies o /\
    res_headers res
    = headersOf (envTruthy (env_DEBUG env)) (opt_headers o)
        ∪ {[ "status" := Some (JNum status);
             "Content-Type" := Some (JStr "application/json") ]} /\
    res_body res
    = (let body := match opt_body o with Some body => body | None => JStr "" end in
       let body := if truthy body then body else JNull in
       if envTruthy (env_DEBUG env) then
         if truthy body then body else JStr debugText
       else body).
Proof.
  unfold response.
  destruct (opt_context o) as [context |]; cbn [orThrow]; [| discriminate].
  destruct (truthy context) eqn:Hcontext; cbn [exc_bind]; [| discriminate].
  destruct (prop context "bindingData") as [bindingData |] eqn:Hprop; cbn [orThrow];
    [| discriminate].
  destruct (truthy bindingData) eqn:Hdata; cbn [exc_bind]; [| discriminate].
  destruct (opt_status o) as [[| | status | | |] |]; try discriminate.
  intros [= <-]. exists context, bindingData, status.
  repeat split; reflexivity || assumption.
Qed.

(** X15. response checks its argument before anything else, whatever
    DEBUG holds: without a truthy context with a truthy bindingData it
    throws the context Error, also when the status is wrong too; with
    such a context and a status that is not a number it throws the
    status Error; otherwise it returns, with the status it was given. *)
Theorem response_validates_context_then_status (env : ProcessEnv) (o : ResponseOptions) :
  (validContext o = false -> response env o = Thrown (Error contextMessage)) /\
  (validContext o = true -> numericStatus o = false ->
   response env o = Thrown (Error statusMessage)) /\
  (validContext o = true -> numericStatus o = true ->
   exists res, response env o = Ok res /\ opt_status o = Some (res_status res)).
Proof.
  unfold validContext, numericStatus, response.
  destruct (opt_context o) as [context |]; cbn [orThrow].
  - destruct (truthy context); cbn [andb exc_bind].
    + destruct (prop context "bindingData") as [bindingData |]; cbn [truthy_undef orThrow].
      * destruct (truthy bindingData); cbn [exc_bind].
        -- repeat split; try discriminate.
           ++ intros _ Hstatus.
              destruct (opt_status o) as [[| | status | | |] |];
                (discriminate || reflexivity).
           ++ intros _ Hstatus.
              destruct (opt_status o) as [[| | status | | |] |]; try discriminate.
              eexists. split; reflexivity.
        -- repeat split; discriminate || reflexivity.
      * repeat split; discriminate || reflexivity.
    + repeat split; discriminate || reflexivity.
  - repeat split; discriminate || reflexivity.
Qed.

(** X16. The headers of a response, key by key, when the caller passes
    a mapping: location is null under DEBUG and the caller's location
    otherwise (present with the value undefined when the caller has
    none); any other header of the caller is kept as it is, status and
    Content-Type included; status and Content-Type default to the status
    code and "application/json" when the caller does not set them; no
    other key appears. *)
Theorem response_headers (env : ProcessEnv) (o : ResponseOptions) (res : Response)
    (headers : gmap string JsVal) (key : string) :
  response env o = Ok res ->
  opt_headers o = Some (JObj headers) ->
  res_headers res !! key
  = if String.eqb key "location" then
      Some (if envTruthy (env_DEBUG env) then Some JNull else headers !! "location")
    else
      match headers !! key with
      | Some value => Some (Some value)
      | None =>
          if String.eqb key "status" then Some (Some (res_status res))
          else if String.eqb key "Content-Type" then Some (Some (JStr "application/json"))
          else None
      end.
Proof.
  intros Hres Hheaders.
  apply response_Ok in Hres
    as (context & bindingData & status & _ & _ & _ & _ & _ & -> & _ & -> & _).
  rewrite Hheaders. cbn [headersOf truthy spread prop].
  destruct (String.eqb_spec key "location") as [-> | Hkey].
  - rewrite lookup_union_l', lookup_insert_eq; [reflexivity |].
    rewrite lookup_insert_eq. eauto.
  - rewrite lookup_union, lookup_insert_ne, lookup_fmap by congruence.
    destruct (headers !! key) as [value |]; cbn; [now destruct (_ !! key) |].
    destruct (String.eqb_spec key "status") as [-> | Hstatus].
    + now rewrite lookup_insert_eq.
    + rewrite lookup_insert_ne by congruence.
      destruct (String.eqb_spec key "Content-Type") as [-> | Htype].
      * now rewrite lookup_singleton_eq.
      * now rewrite lookup_singleton_ne by congruence.
Qed.

(** X17. Without a truthy headers value (none, null, false, 0, the empty
    string) the response has exactly the two default headers, and no
    location, under DEBUG as well. *)
Theorem response_headers_default (env : ProcessEnv) (o : ResponseOptions)
    (res : Response) :
  response env o = Ok res ->
  truthy_undef (opt_headers o) = false ->
  res_headers res
  = {[ "status" := Some (res_status res);
       "Content-Type" := Some (JStr "application/json") ]}.
Proof.
  intros Hres Hheaders.
  apply response_Ok in Hres
    as (context & bindingData & status & _ & _ & _ & _ & _ & -> & _ & -> & _).
  unfold headersOf. destruct (opt_headers o) as [h |]; cbn [truthy_undef] in Hheaders.
  - rewrite Hheaders. apply (left_id ∅ (∪)).
  - apply (left_id ∅ (∪)).
Qed.


End ResponseFacts.

Section CookieFacts.

Variable cookie_parse : string -> gmap string string.

Notation validateCookie := (validateCookie cookie_parse).

(** X19. validateCookie answers true exactly when its argument is a
    string whose parsed StaticWebAppsAuthCookie is a non-empty string
    equal to the environment variable of the same name.  So it never
    answers true while that variable is unset or empty, whatever the
    cookie says. *)
Theorem validateCookie_true (env : ProcessEnv) (cookieValue : option JsVal) :
  (validateCookie env cookieValue = Ok true <->
   exists header value,
     cookieValue = Some (JStr header) /\
     cookie_parse header !! "StaticWebAppsAuthCookie" = Some value /\
     value <> "" /\
     env_StaticWebAppsAuthCookie env = Some value) /\
  (envTruthy (env_StaticWebAppsAuthCookie env) = false ->
   validateCookie env cookieValue <> Ok true).
Proof.
  assert (Hiff : validateCookie env cookieValue = Ok true <->
                 exists header value,
                   cookieValue = Some (JStr header) /\
                   cookie_parse header !! "StaticWebAppsAuthCookie" = Some value /\
                   value <> "" /\
                   env_StaticWebAppsAuthCookie env = Some value).
  { unfold validateCookie. split.
    - destruct cookieValue as [[| | | header | |] |]; try discriminate.
      destruct (cookie_parse header !! "StaticWebAppsAuthCookie") as [value |] eqn:Hvalue;
        [| discriminate].
      destruct (String.eqb_spec value ""); cbn [negb]; [discriminate |].
      intros [= Heq]. apply bool_decide_eq_true in Heq.
      exists header, value. repeat split; try assumption. now symmetry.
    - intros (header & value & -> & -> & Hvalue & Henv).
      destruct (String.eqb_spec value ""); [contradiction |]. cbn [negb].
      f_equal. apply bool_decide_eq_true. now symmetry. }
  split; [exact Hiff |].
  intros Henv Htrue. apply Hiff in Htrue as (header & value & _ & _ & Hvalue & Hsecret).
  rewrite Hsecret in Henv. cbn in Henv.
  destruct (String.eqb_spec value ""); [contradiction | discriminate].
Qed.

End CookieFacts.

(** ** The extra facts on the sample projects *)

Lemma sampleProject_selected (content : string) :
  selectedDescriptor (sampleProject content) sampleDescriptorPath.
Proof.
  exists ["ci.yml"; sampleFile], sampleFile. repeat split; vm_compute; reflexivity.
Defined.

Lemma sampleProject_parsed_more (content : string) (swaYaml : JsVal) :
  sampleParseMore content = Ok swaYaml ->
  parsedDescriptor sampleParseMore (sampleProject content) sampleDescriptorPath swaYaml.
Proof.
  intros Hparse. exists ["ci.yml"; sampleFile], sampleFile, content.
  repeat split; try (vm_compute; reflexivity). exact Hparse.
Defined.

Lemma console_tells_completion_witness :
  exists githubActionFile swaYaml,
    parsedDescriptor sampleParse (sampleProject "deploy client server")
      githubActionFile swaYaml /\
    infoLines sampleDescriptorPath scenarioConfig
    = infoLines githubActionFile scenarioConfig.
Proof.
  assert (Hrun : readConfigFile sample_dotnet (sampleDetect sample_node) sampleParse
                   (sampleProject "deploy client server") None
                 = (infoLines sampleDescriptorPath scenarioConfig,
                    Ok (RetConfig scenarioConfig)))
    by (vm_compute; reflexivity).
  pose proof (console_tells_completion sample_dotnet (sampleDetect sample_node)
                sampleParse (sampleProject "deploy client server") None) as Htold.
  rewrite Hrun in Htold. exact Htold.
Defined.

Lemma override_returned_exactly_when_witness :
  exists out o,
    readConfigFile sample_dotnet (sampleDetect sample_node) sampleParse
      (shadowedProject "deploy client server") (Some clientOverride)
    = (out, Ok (RetOverride o)).
Proof.
  apply (override_returned_exactly_when sample_dotnet (sampleDetect sample_node)
           sampleParse (shadowedProject "deploy client server") (Some clientOverride)).
  right. exists ["ci.yml"; sampleFile]. split; [vm_compute; reflexivity |].
  right. exists sampleFile. split; vm_compute; [reflexivity | discriminate].
Defined.

Lemma file_system_errors_propagate_witness :
  readConfigFile sample_dotnet (sampleDetect sample_node) sampleParse
    workflowsFileProject None
  = ([], Thrown (SystemError "ENOTDIR" "/proj/.github/workflows")) /\
  readConfigFile sample_dotnet (sampleDetect sample_node) sampleParse
    workflowFolderProject None
  = ([], Thrown (SystemError "EISDIR" sampleDescriptorPath)).
Proof.
  split.
  - apply (file_system_errors_propagate sample_dotnet (sampleDetect sample_node)
             sampleParse workflowsFileProject None) with (content := "").
    vm_compute. reflexivity.
  - apply (file_system_errors_propagate sample_dotnet (sampleDetect sample_node)
             sampleParse workflowFolderProject None) with (listing := []).
    + exists [sampleFile], sampleFile. repeat split; vm_compute; reflexivity.
    + vm_compute. reflexivity.
Defined.

Lemma parse_failures_propagate_witness :
  readConfigFile sample_dotnet (sampleDetect sample_node) sampleParseMore
    (sampleProject "tabs") None
  = ([], Thrown (SyntaxError "tabs are not allowed")) /\
  readConfigFile sample_dotnet (sampleDetect sample_node) sampleParseMore
    (sampleProject "empty") None
  = ([], Thrown (Error (couldNotParse sampleDescriptorPath))).
Proof.
  split.
  - apply (parse_failures_propagate sample_dotnet (sampleDetect sample_node)
             sampleParseMore (sampleProject "tabs") None sampleDescriptorPath "tabs").
    + apply sampleProject_selected.
    + vm_compute. reflexivity.
    + reflexivity.
  - apply (parse_failures_propagate sample_dotnet (sampleDetect sample_node)
             sampleParseMore (sampleProject "empty") None sampleDescriptorPath "empty")
      with (swaYaml := JNull).
    + apply sampleProject_selected.
    + vm_compute. reflexivity.
    + reflexivity.
    + reflexivity.
Defined.

Lemma locations_must_be_strings_witness :
  exists what,
    readConfigFile sample_dotnet (sampleDetect sample_node) sampleParseMore
      (sampleProject "numeric location") None
    = ([], Thrown (TypeError what)).
Proof.
  assert (Hwith : swaBuildConfigWith sampleDescriptorPath
                    (sampleWorkflow [sampleStep numericWith]) = Ok numericWith)
    by (vm_compute; reflexivity).
  assert (Hfields : destructure numericWith = Ok numericFields)
    by (vm_compute; reflexivity).
  exact (locations_must_be_strings sample_dotnet (sampleDetect sample_node)
           sampleParseMore (sampleProject "numeric location") None sampleDescriptorPath
           (sampleWorkflow [sampleStep numericWith]) numericWith numericFields
           (sampleProject_parsed_more "numeric location" _ eq_refl) Hwith Hfields).
Defined.

Lemma resolved_locations_closed_form_witness :
  exists config,
    readConfigFile sample_dotnet (sampleDetect sample_node) sampleParseMore
      (sampleProject "full") None
    = (infoLines sampleDescriptorPath config, Ok (RetConfig config)) /\
    appLocation config = "/proj/client/" /\
    apiLocation config = "/proj/services/api" /\
    appArtifactLocation config = "/proj/client/dist".
Proof.
  assert (Hwith : swaBuildConfigWith sampleDescriptorPath
                    (sampleWorkflow [checkoutStep; sampleStep fullWith]) = Ok fullWith)
    by (vm_compute; reflexivity).
  assert (Hfields : destructure fullWith = Ok fullFields)
    by (vm_compute; reflexivity).
  destruct (resolved_locations_closed_form sample_dotnet (sampleDetect sample_node)
              sampleParseMore (sampleProject "full") sampleDescriptorPath
              (sampleWorkflow [checkoutStep; sampleStep fullWith]) fullWith fullFields
              "client/" "services/api" "/dist"
              eq_refl eq_refl (sampleProject_parsed_more "full" _ eq_refl) Hwith Hfields
              eq_refl ltac:(discriminate) eq_refl
              eq_refl ltac:(discriminate) eq_refl
              eq_refl ltac:(discriminate) eq_refl)
    as (config & Hrun & _ & _ & Happ & Hapi & Hartifact).
  exists config. split; [exact Hrun |]. rewrite Hartifact, Happ, Hapi.
  repeat split.
Defined.

Lemma falsy_api_location_is_cwd_witness :
  exists out config,
    readConfigFile sample_dotnet (sampleDetect sample_node) sampleParseMore
      (sampleProject "root api") None
    = (out, Ok (RetConfig config)) /\
    apiLocation config = "/proj/".
Proof.
  eexists. eexists. split; [vm_compute; reflexivity |].
  apply (falsy_api_location_is_cwd sample_dotnet (sampleDetect sample_node)
           sampleParseMore (sampleProject "root api") None sampleDescriptorPath
           (sampleWorkflow [checkoutStep; sampleStep rootApiWith]) rootApiWith
           {| app_build_command := JStr "npm run build --if-present";
              api_build_command := JStr "npm run build --if-present";
              app_location := JStr "/";
              app_artifact_location := JStr "build";
              api_location := JStr "" |}
           (infoLines sampleDescriptorPath
              {| appBuildCommand := JStr "npm run build --if-present";
                 apiBuildCommand := JStr "npm run build --if-present";
                 appLocation := "/proj/";
                 apiLocation := "/proj/";
                 appArtifactLocation := "/proj/build" |})).
  - reflexivity.
  - reflexivity.
  - apply sampleProject_parsed_more. reflexivity.
  - vm_compute. reflexivity.
  - vm_compute. reflexivity.
  - reflexivity.
  - discriminate.
  - vm_compute. reflexivity.
Defined.

Lemma default_locations_witness :
  exists config,
    readConfigFile sample_dotnet (sampleDetect sample_dotnet) sampleParseMore
      (sampleProject "defaults") None
    = (infoLines sampleDescriptorPath config, Ok (RetConfig config)) /\
    appLocation config = "/proj/" /\
    apiLocation config = "/proj/api" /\
    appArtifactLocation config = "/proj/bin/Debug/netstandard2.1/publish/".
Proof.
  assert (Hwith : swaBuildConfigWith sampleDescriptorPath
                    (sampleWorkflow [sampleStep (JObj ∅)]) = Ok (JObj ∅))
    by (vm_compute; reflexivity).
  destruct (default_locations sample_dotnet (sampleDetect sample_dotnet)
              sampleParseMore (sampleProject "defaults") sampleDescriptorPath
              (sampleWorkflow [sampleStep (JObj ∅)]) (JObj ∅)
              eq_refl eq_refl (sampleProject_parsed_more "defaults" _ eq_refl) Hwith
              eq_refl eq_refl eq_refl)
    as (config & Hrun & Happ & Hapi & Hartifact).
  exists config. split; [exact Hrun |]. rewrite Hartifact, Happ, Hapi.
  repeat split.
Defined.

Lemma override_is_placed_under_cwd_witness :
  exists out config,
    readConfigFile sample_dotnet (sampleDetect sample_node) sampleParse
      (sampleProject "deploy client server") (Some absoluteOverride)
    = (out, Ok (RetConfig config)) /\
    appLocation config = "/proj/srv/app" /\
    apiLocation config = "/proj/srv/api/".
Proof.
  eexists. eexists. split; [vm_compute; reflexivity |].
  destruct (override_is_placed_under_cwd sample_dotnet (sampleDetect sample_node)
              sampleParse (sampleProject "deploy client server") absoluteOverride _ _
              eq_refl eq_refl ltac:(vm_compute; reflexivity))
    as (Happ & Hapi & _).
  split.
  - apply (Happ "/srv/app"); [reflexivity | discriminate | reflexivity].
  - apply (Hapi "srv/api/"); [reflexivity | discriminate | reflexivity].
Defined.

Lemma override_fields_independent_witness :
  exists out config,
    readConfigFile sample_dotnet (sampleDetect sample_node) sampleParse
      (sampleProject "deploy client server") (Some appOnlyOverride)
    = (out, Ok (RetConfig config)) /\
    apiLocation config = "/proj/server" /\
    appArtifactLocation config = "/proj/client/".
Proof.
  assert (Hrun0 : readConfigFile sample_dotnet (sampleDetect sample_node) sampleParse
                    (sampleProject "deploy client server") (Some noOverride)
                  = (infoLines sampleDescriptorPath scenarioConfig,
                     Ok (RetConfig scenarioConfig)))
    by (vm_compute; reflexivity).
  destruct (override_fields_independent sample_dotnet (sampleDetect sample_node)
              sampleParse (sampleProject "deploy client server")
              noOverride appOnlyOverride _ _ Hrun0)
    as (out & config & Hrun & _ & Hapi & Hartifact).
  exists out, config. split; [exact Hrun |].
  rewrite <- (Hapi eq_refl), <- (Hartifact eq_refl).
  split; reflexivity.
Defined.

Lemma empty_override_changes_nothing_witness :
  readConfigFile sample_dotnet (sampleDetect sample_node) sampleParse
    (sampleProject "deploy client server") (Some buildOnlyOverride)
  = readConfigFile sample_dotnet (sampleDetect sample_node) sampleParse
      (sampleProject "deploy client server") None.
Proof.
  apply (empty_override_changes_nothing sample_dotnet (sampleDetect sample_node)
           sampleParse (sampleProject "deploy client server") buildOnlyOverride
           sampleDescriptorPath clientServerWorkflow).
  - exists ["ci.yml"; sampleFile], sampleFile, "deploy client server".
    repeat split; vm_compute; reflexivity.
  - intros value [= <-]. reflexivity.
  - intros value [=].
  - intros value [=].
Defined.

Lemma first_deploy_step_wins_witness :
  exists c,
    destructure sampleWith = Ok c /\
    readConfigFile sample_dotnet (sampleDetect sample_node) sampleParseMore
      (sampleProject "two deploy steps") None
    = configFrom sample_dotnet (sampleDetect sample_node) "/proj" None
        sampleDescriptorPath c.
Proof.
  apply (first_deploy_step_wins sample_dotnet (sampleDetect sample_node) sampleParseMore
           (sampleProject "two deploy steps") None sampleDescriptorPath
           (sampleWorkflow [checkoutStep; sampleStep sampleWith; sampleStep fullWith])
           (JObj {[ "build_and_deploy_job" :=
                      JObj {[ "steps" := JArr [checkoutStep; sampleStep sampleWith;
                                               sampleStep fullWith] ]} ]})
           (JObj {[ "steps" := JArr [checkoutStep; sampleStep sampleWith;
                                     sampleStep fullWith] ]})
           [checkoutStep] [sampleStep fullWith] (sampleStep sampleWith) sampleWith).
  - apply sampleProject_parsed_more. reflexivity.
  - reflexivity.
  - vm_compute. reflexivity.
  - reflexivity.
  - vm_compute. reflexivity.
  - reflexivity.
  - vm_compute. reflexivity.
  - repeat constructor.
  - vm_compute. reflexivity.
  - vm_compute. reflexivity.
  - reflexivity.
Defined.

Lemma malformed_step_throws_witness :
  exists what,
    readConfigFile sample_dotnet (sampleDetect sample_node) sampleParseMore
      (sampleProject "null step") None
    = ([], Thrown (TypeError what)).
Proof.
  apply (malformed_step_throws sample_dotnet (sampleDetect sample_node) sampleParseMore
           (sampleProject "null step") None sampleDescriptorPath
           (sampleWorkflow [JNull; sampleStep sampleWith])
           (JObj {[ "build_and_deploy_job" :=
                      JObj {[ "steps" := JArr [JNull; sampleStep sampleWith] ]} ]})
           (JObj {[ "steps" := JArr [JNull; sampleStep sampleWith] ]})
           [] [sampleStep sampleWith] JNull).
  - apply sampleProject_parsed_more. reflexivity.
  - reflexivity.
  - vm_compute. reflexivity.
  - reflexivity.
  - vm_compute. reflexivity.
  - reflexivity.
  - vm_compute. reflexivity.
  - constructor.
  - left. reflexivity.
Defined.

Lemma last_matching_file_is_read_witness :
  readConfigFile sample_dotnet (sampleDetect sample_node) sampleParseMore
    twoWorkflowsProject None
  = fromDescriptor sample_dotnet (sampleDetect sample_node) "/proj" None
      sampleDescriptorPath clientServerWorkflow.
Proof.
  apply (last_matching_file_is_read sample_dotnet (sampleDetect sample_node)
           sampleParseMore twoWorkflowsProject None
           ["azure-static-web-apps-old.yml"] ["ci.yml"] sampleFile
           "deploy client server" clientServerWorkflow).
  - vm_compute. reflexivity.
  - reflexivity.
  - repeat constructor.
  - vm_compute. reflexivity.
  - vm_compute. reflexivity.
  - reflexivity.
Defined.

Lemma response_validates_context_then_status_witness :
  response sampleDebugText plainEnv
    {| opt_context := Some (JObj ∅); opt_status := Some (JStr "200");
       opt_headers := None; opt_cookies := None; opt_body := None |}
  = Thrown (Error contextMessage) /\
  response sampleDebugText plainEnv
    {| opt_context := Some sampleContext; opt_status := Some (JStr "200");
       opt_headers := None; opt_cookies := None; opt_body := None |}
  = Thrown (Error statusMessage).
Proof.
  split.
  - apply (response_validates_context_then_status sampleDebugText plainEnv).
    vm_compute. reflexivity.
  - apply (response_validates_context_then_status sampleDebugText plainEnv);
      vm_compute; reflexivity.
Defined.

Lemma response_headers_witness :
  exists res,
    response sampleDebugText debugEnv redirectOptions = Ok res /\
    res_headers res !! "location" = Some (Some JNull) /\
    res_headers res !! "Content-Type" = Some (Some (JStr "text/html")) /\
    res_headers res !! "status" = Some (Some (JNum 302%float)).
Proof.
  eexists. split; [reflexivity |].
  split; [| split];
    refine (response_headers sampleDebugText debugEnv redirectOptions _
              {[ "location" := JStr "/login"; "Content-Type" := JStr "text/html" ]}
              _ eq_refl eq_refl).
Defined.

Lemma response_headers_default_witness :
  exists res,
    response sampleDebugText debugEnv plainOptions = Ok res /\
    res_headers res
    = {[ "status" := Some (JNum 200%float);
         "Content-Type" := Some (JStr "application/json") ]}.
Proof.
  eexists. split; [reflexivity |].
  apply (response_headers_default sampleDebugText debugEnv plainOptions);
    reflexivity.
Defined.


Lemma validateCookie_true_witness :
  validateCookie sampleCookieParse plainEnv
    (Some (JStr "StaticWebAppsAuthCookie=s3cret")) = Ok true /\
  validateCookie sampleCookieParse debugEnv
    (Some (JStr "StaticWebAppsAuthCookie=s3cret")) <> Ok true.
Proof.
  split.
  - apply (validateCookie_true sampleCookieParse plainEnv).
    exists "StaticWebAppsAuthCookie=s3cret", "s3cret".
    repeat split; (reflexivity || discriminate).
  - apply (validateCookie_true sampleCookieParse debugEnv). reflexivity.
Defined.
